(** * hannds: piano-roll encoding and batch sampling

    A shallow embedding of [import_data.py]: the MIDI-to-tensor encoder
    [convert] and the windowed random sampler [Dataset.next_batch].

    Modelling conventions.
    - Python floats (note times, [samples_per_sec]) are exact rationals [Q];
      [math.floor] and [math.ceil] are [Qfloor] and [Qceiling].
    - Python ints are [Z]; array positions that numpy has already
      normalised are [nat].
    - A numpy array of shape (n, 2, 88) is a list of n windows, a window a
      list of 2 rows (one per hand), a row a list of 88 cells.
    - An exception is [Err cls], with [cls] the name of the Python class
      that is raised; it propagates through [≫=].
    - The file system and the debug log are an explicit [disk]; the hidden
      state of the [random] module is an explicit [rng]. *)

From Stdlib Require Import Ascii ZArith QArith Qround Qminmax Lia.
From stdpp Require Import base option list strings pretty gmap.

Local Open Scope Z_scope.

(** ** Exceptions *)

Inductive result (A : Type) : Type :=
  | Ok (x : A)
  | Err (cls : string).
Arguments Ok {A} x.
Arguments Err {A} cls.

#[global] Instance result_ret : MRet result := λ A x, Ok x.
#[global] Instance result_bind : MBind result := λ A B f m,
  match m with Ok x => f x | Err e => Err e end.
#[global] Instance result_fmap : FMap result := λ A B f m,
  match m with Ok x => Ok (f x) | Err e => Err e end.

Definition is_Ok {A} (m : result A) : Prop := ∃ x, m = Ok x.

(** ** numpy and Python primitives *)

Abbreviation row := (list bool).
Abbreviation window := (list (list bool)).
Abbreviation tensor := (list (list (list bool))).

(** [np.zeros((n, 2, 88), dtype=np.bool)]; a negative dimension is a
    [ValueError]. *)
Definition zero_window : window := replicate 2 (replicate 88 false).

Definition np_zeros (n : Z) : result tensor :=
  if n <? 0 then Err "ValueError"
  else Ok (replicate (Z.to_nat n) zero_window).

(** An integer index [i] on an axis of size [len]: negative indices count
    from the end, anything outside [-len, len) is an [IndexError]. *)
Definition py_index (len : nat) (i : Z) : result nat :=
  if (0 <=? i) && (i <? Z.of_nat len) then Ok (Z.to_nat i)
  else if (- Z.of_nat len <=? i) && (i <? 0) then Ok (Z.to_nat (i + Z.of_nat len))
  else Err "IndexError".

(** A slice bound on an axis of size [len]: negative bounds count from the
    end, and the result is clamped to [0, len]. *)
Definition py_slice_bound (len : nat) (i : Z) : nat :=
  if i <? 0 then Z.to_nat (Z.max 0 (i + Z.of_nat len))
  else Z.to_nat (Z.min i (Z.of_nat len)).

(** [l[lo:hi]] *)
Definition py_slice {A} (lo hi : Z) (l : list A) : list A :=
  let lo' := py_slice_bound (length l) lo in
  let hi' := py_slice_bound (length l) hi in
  take (hi' - lo')%nat (drop lo' l).

(** [l[i]] on a Python list *)
Definition py_getitem {A} (l : list A) (i : nat) : result A :=
  match l !! i with Some x => Ok x | None => Err "IndexError" end.

(** [t[w, h, k]] as an optional cell *)
Definition cell (t : tensor) (w h k : nat) : option bool :=
  win ← t !! w; r ← (win : window) !! h; (r : row) !! k.

(** ** MIDI data, as [pretty_midi] hands it over *)

Record Note := { start : Q; end_ : Q; pitch : Z }.
Record Instrument := { notes : list Note }.
Record PrettyMIDI := { instruments : list Instrument; get_end_time : Q }.

(** ** The encoder *)

(** [samples_per_sec = (1000 / ms_window)] *)
Definition samples_per_sec (ms_window : Z) : result Q :=
  if ms_window =? 0 then Err "ZeroDivisionError"
  else Ok (1000 / inject_Z ms_window)%Q.

Definition start_idx (sps : Q) (note : Note) : Z := Qfloor (start note * sps).
Definition end_idx (sps : Q) (note : Note) : Z := Qceiling (end_ note * sps).

(** [win[hand, k] = True] *)
Definition set_true (hand k : nat) (win : window) : window :=
  alter (<[k := true]>) hand win.

(** [hands[lo:hi, hand, k] = True], bounds already normalised *)
Definition assign_slice (lo hi hand k : nat) (t : tensor) : tensor :=
  imap (λ w win, if bool_decide (lo ≤ w < hi)%nat then set_true hand k win else win) t.

(** One iteration of the inner loop:
    [hands[start:end, hand, note.pitch - 21] = True]. *)
Definition write_note (sps : Q) (hand : nat) (hands : tensor) (note : Note)
  : result tensor :=
  k ← py_index 88 (pitch note - 21);
  Ok (assign_slice (py_slice_bound (length hands) (start_idx sps note))
                   (py_slice_bound (length hands) (end_idx sps note))
                   hand k hands).

(** [for note in midi_hand.notes: ...] *)
Fixpoint write_notes (sps : Q) (hand : nat) (hands : tensor) (ns : list Note)
  : result tensor :=
  match ns with
  | [] => Ok hands
  | note :: ns' => hands' ← write_note sps hand hands note; write_notes sps hand hands' ns'
  end.

(** The body of the [if] in [convert], from [midi.instruments[0]] to the
    array handed to [np.save]. *)
Definition encode (midi : PrettyMIDI) (sps : Q) : result tensor :=
  left_hand ← py_getitem (instruments midi) 0;
  right_hand ← py_getitem (instruments midi) 1;
  let n_windows := Qceiling (get_end_time midi * sps) in
  hands ← np_zeros n_windows;
  hands ← write_notes sps 0 hands (notes left_hand);
  write_notes sps 1 hands (notes right_hand).

(** The encoder as a function of [ms_window]. *)
Definition encode_ms (midi : PrettyMIDI) (ms_window : Z) : result tensor :=
  sps ← samples_per_sec ms_window; encode midi sps.

(** ** Persistence: the artifact cache *)

Record disk := { npy_files : gmap string tensor; debug_log : list string }.

(** [midi_file + '_' + str(ms_window) + 'ms' + '.npy'] *)
Definition npy_name (midi_file : string) (ms_window : Z) : string :=
  midi_file +:+ "_" +:+ pretty ms_window +:+ "ms" +:+ ".npy".

(** ['Converting file \'' + midi_file + '\'...'], the debug message *)
Definition converting_msg (midi_file : string) : string :=
  "Converting file '" +:+ midi_file +:+ "'...".

(** [overwrite or not os.path.exists(npy_file)], the test that guards the
    encoding of one file. *)
Definition reencodes (ms_window : Z) (overwrite : bool) (d : disk)
    (file : string * PrettyMIDI) : bool :=
  overwrite || negb (bool_decide (is_Some (npy_files d !! npy_name file.1 ms_window))).

(** [logging.debug(msg)] and [np.save(npy_file, hands)] *)
Definition logging_debug (msg : string) (d : disk) : disk :=
  {| npy_files := npy_files d; debug_log := debug_log d ++ [msg] |}.
Definition np_save (npy_file : string) (hands : tensor) (d : disk) : disk :=
  {| npy_files := <[npy_file := hands]> (npy_files d); debug_log := debug_log d |}.

(** One iteration of the loop over [midi_files]. *)
Definition convert_file (ms_window : Z) (sps : Q) (overwrite : bool)
    (file : string * PrettyMIDI) (d : disk) : result unit * disk :=
  let npy_file := npy_name file.1 ms_window in
  if reencodes ms_window overwrite d file then
    let d1 := logging_debug (converting_msg file.1) d in
    match encode file.2 sps with
    | Ok hands => (Ok (), np_save npy_file hands d1)
    | Err e => (Err e, d1)
    end
  else (Ok (), d).

Fixpoint convert_files (ms_window : Z) (sps : Q) (overwrite : bool)
    (files : list (string * PrettyMIDI)) (d : disk) : result unit * disk :=
  match files with
  | [] => (Ok (), d)
  | file :: rest =>
      match convert_file ms_window sps overwrite file d with
      | (Ok _, d') => convert_files ms_window sps overwrite rest d'
      | (Err e, d') => (Err e, d')
      end
  end.

(** [get_files_from_path], given what the path holds. *)
Definition get_files_from_path {A} (found : list A) : result (list A) :=
  match found with
  | [] => Err "FileNotFoundError"
  | _ => Ok found
  end.

(** [convert(path, ms_window, overwrite)], with [found] the MIDI files under
    [path], each with its parse. *)
Definition convert (found : list (string * PrettyMIDI)) (ms_window : Z)
    (overwrite : bool) (d : disk) : result unit * disk :=
  match get_files_from_path found with
  | Err e => (Err e, d)
  | Ok midi_files =>
      match samples_per_sec ms_window with
      | Err e => (Err e, d)
      | Ok sps => convert_files ms_window sps overwrite midi_files d
      end
  end.

(** The scenario of the specification: pitch 60 from 0.000 s to 0.050 s in
    hand 0, window of 20 ms. *)
Definition note60 : Note := {| start := 0; end_ := 5 # 100; pitch := 60 |}.
Definition midi60 : PrettyMIDI :=
  {| instruments := [ {| notes := [note60] |}; {| notes := [] |} ];
     get_end_time := 5 # 100 |}.

Definition note72 : Note := {| start := 0; end_ := 2 # 10; pitch := 72 |}.
Definition midi60_72 : PrettyMIDI :=
  {| instruments := [ {| notes := [note60] |}; {| notes := [note72] |} ];
     get_end_time := 2 # 10 |}.

(** ** Notions used to state what the encoder does *)

#[global] Instance result_eq_dec {A} `{EqDecision A} : EqDecision (result A).
Proof. solve_decision. Defined.

(** The pitch axis position of a note: [note.pitch - 21] as numpy reads it. *)
Definition pitch_offset (note : Note) : result nat := py_index 88 (pitch note - 21).

(** The cells that one iteration of the loop sets, in an array of [len]
    windows. *)
Definition writes (len : nat) (sps : Q) (hand : nat) (note : Note) (w h k : nat) : bool :=
  bool_decide (py_slice_bound len (start_idx sps note) ≤ w
               < py_slice_bound len (end_idx sps note))%nat
  && (bool_decide (hand = h) && bool_decide (pitch_offset note = Ok k)).

(** ** Well-formed input, as the data model of the encoder describes it *)

(** A note event: a time from the start of the piece on, a positive
    duration, and one of the 88 keys (MIDI pitches 21 to 108). *)
Definition valid_note (note : Note) : bool :=
  Qle_bool 0 (start note) && negb (Qle_bool (end_ note) (start note))
  && (21 <=? pitch note) && (pitch note <=? 108).

(** Exactly two hand tracks of valid notes and an end time that is a time. *)
Definition valid_tracks (midi : PrettyMIDI) : bool :=
  match instruments midi with
  | [left_hand; right_hand] =>
      forallb valid_note (notes left_hand) && forallb valid_note (notes right_hand)
      && Qle_bool 0 (get_end_time midi)
  | _ => false
  end.

(** The notes of hand [h] (none if the file has no such track). *)
Definition hand_notes (midi : PrettyMIDI) (h : nat) : list Note :=
  match instruments midi !! h with Some hand => notes hand | None => [] end.

(** The latest note end over both hands (0 without notes). *)
Definition track_end_time (midi : PrettyMIDI) : Q :=
  foldr (λ note acc, Qmax (end_ note) acc) 0%Q (hand_notes midi 0 ++ hand_notes midi 1).


(** ** Malformed input *)

(** A note that ends before it starts, one of no duration, and a file
    holding each. *)
Definition note_inverted : Note := {| start := 1 # 2; end_ := 1 # 10; pitch := 60 |}.
Definition note_empty : Note := {| start := 51 # 100; end_ := 51 # 100; pitch := 60 |}.
Definition midi_inverted : PrettyMIDI :=
  {| instruments := [ {| notes := [note_inverted] |}; {| notes := [] |} ];
     get_end_time := 1 # 10 |}.
Definition midi_empty_note : PrettyMIDI :=
  {| instruments := [ {| notes := [note_empty] |}; {| notes := [] |} ];
     get_end_time := 51 # 100 |}.

(** A note above the keyboard in the second track of a file, and a file
    with no track. *)
Definition note_high : Note := {| start := 0; end_ := 1 # 10; pitch := 109 |}.
Definition midi_high : PrettyMIDI :=
  {| instruments := [ {| notes := [] |}; {| notes := [note60; note_high] |} ];
     get_end_time := 1 # 10 |}.
Definition midi_no_track : PrettyMIDI := {| instruments := []; get_end_time := 0 |}.

(** A cache that already holds an artifact for the first of two files. *)
Definition two_files : list (string * PrettyMIDI) :=
  [("a.mid"%string, midi60); ("b.mid"%string, midi60_72)].
Definition stale : tensor := [].
Definition disk_with_a : disk :=
  {| npy_files := {[ "a.mid_20ms.npy"%string := stale ]}; debug_log := [] |}.

(** * The sampler *)

(** ** The random source

    The hidden state of the [random] module is a tape of raw draws and a
    cursor.  [random.randrange(n)] raises ValueError on an empty range and
    otherwise consumes one raw draw and returns it reduced to [0, n): any
    value of the range is returned for some tape. *)
Record rng := { tape : nat → Z; cursor : nat }.

Definition advance (k : nat) (g : rng) : rng :=
  {| tape := tape g; cursor := (cursor g + k)%nat |}.

Definition randrange (n : Z) (g : rng) : result Z * rng :=
  if n <=? 0 then (Err "ValueError", g)
  else (Ok (tape g (cursor g) `mod` n), advance 1 g).

(** ** The dataset *)

(** [self.data] holds 0.0 and 1.0; it is read only through the cast to
    [bool] of the copy into [hands], and is modelled by that reading. *)
Record Dataset := { n_windows_past : Z; data : tensor }.

(** The object and the random source that a call of a method may touch. *)
Record world := { self : Dataset; random : rng }.

(** An array whose windows all have shape (2, 88). *)
Definition has_shape (t : tensor) : bool :=
  forallb (λ win : window,
             (length win =? 2)%nat && forallb (λ r : row, (length r =? 88)%nat) win) t.

(** [Dataset.__init__], given the arrays stored under [path]:
    no file is a FileNotFoundError, a negative padding or an array of
    another shape a ValueError of numpy. *)
Definition Dataset_init (npys : list tensor) (n_windows_past : Z) : result Dataset :=
  npy_files ← get_files_from_path npys;
  pad ← np_zeros n_windows_past;
  if forallb has_shape npy_files
  then Ok {| n_windows_past := n_windows_past;
             data := pad ++ concat npy_files ++ pad |}
  else Err "ValueError".

(** ** A batch *)

(** A cell of [batch_y]: a float that is a whole number, or nan. *)
Inductive label := NaN | Num (z : Z).

#[global] Instance label_eq_dec : EqDecision label.
Proof. solve_decision. Defined.

(** [np.zeros((n_samples, n_windows_past + 1, 2, 88), dtype=np.bool)] *)
Definition np_zeros4 (n len : Z) : result (list tensor) :=
  if (n <? 0) || (len <? 0) then Err "ValueError"
  else Ok (replicate (Z.to_nat n) (replicate (Z.to_nat len) zero_window)).

(** [hands[sample, :, :, :] = src]: [src] must have the length of the
    target or length 1, in which case it is repeated (the other two axes are
    (2, 88) on both sides). *)
Definition assign_sample (sample : nat) (src : tensor) (hands : list tensor)
  : result (list tensor) :=
  match hands !! sample with
  | None => Err "IndexError"
  | Some old =>
      if (length src =? length old)%nat then Ok (<[sample := src]> hands)
      else match src with
           | [win] => Ok (<[sample := replicate (length old) win]> hands)
           | _ => Err "ValueError"
           end
  end.

(** The loop [for sample in range(n_samples)], with [todo] iterations left. *)
Fixpoint sample_loop (todo : nat) (sample : nat) (hands : list tensor) (st : world)
  : result (list tensor) * world :=
  match todo with
  | O => (Ok hands, st)
  | S todo' =>
      let past := n_windows_past (self st) in
      match randrange (Z.of_nat (length (data (self st))) - past) (random st) with
      | (Err e, g) => (Err e, {| self := self st; random := g |})
      | (Ok start, g) =>
          let st' := {| self := self st; random := g |} in
          match assign_sample sample
                  (py_slice start (start + past + 1) (data (self st))) hands with
          | Err e => (Err e, st')
          | Ok hands' => sample_loop todo' (S sample) hands' st'
          end
      end
  end.

(** [hands[:, :, h, :]] *)
Definition hand_plane (h : nat) (hands : list tensor) : list (list row) :=
  fmap (M := list) (fmap (M := list) (λ win : window, win !!! h)) hands.

(** [np.logical_or] and [np.logical_and] of two such planes *)
Definition logical_or (a b : list (list row)) : list (list row) :=
  zip_with (zip_with (zip_with orb)) a b.
Definition logical_and (a b : list (list row)) : list (list row) :=
  zip_with (zip_with (zip_with andb)) a b.

(** [plane[:, -1, :]] on an axis of [len] windows *)
Definition last_window (len : nat) (plane : list (list row)) : result (list row) :=
  i ← py_index len (-1); Ok ((λ sl : list row, sl !!! i) <$> plane).

(** [batch_y[mask] = v] *)
Definition mask_assign (mask : list row) (v : label) (batch_y : list (list label))
  : list (list label) :=
  zip_with (zip_with (λ (m : bool) old, if m then v else old)) mask batch_y.

(** The part of [next_batch] after the loop. *)
Definition make_batch (n_samples : nat) (len : nat) (hands : list tensor)
  : result (list (list row) * list (list label)) :=
  let batch_x := logical_or (hand_plane 0 hands) (hand_plane 1 hands) in
  let both := logical_and (hand_plane 0 hands) (hand_plane 1 hands) in
  let batch_y := replicate n_samples (replicate 88 NaN) in
  last0 ← last_window len (hand_plane 0 hands);
  let batch_y := mask_assign last0 (Num (-1)) batch_y in
  last1 ← last_window len (hand_plane 1 hands);
  let batch_y := mask_assign last1 (Num 1) batch_y in
  last_both ← last_window len both;
  let batch_y := mask_assign last_both (Num 0) batch_y in
  Ok (batch_x, batch_y).

(** [Dataset.next_batch(n_samples)] *)
Definition next_batch (n_samples : Z) (st : world)
  : result (list (list row) * list (list label)) * world :=
  match np_zeros4 n_samples (n_windows_past (self st) + 1) with
  | Err e => (Err e, st)
  | Ok hands =>
      match sample_loop (Z.to_nat n_samples) 0 hands st with
      | (Err e, st') => (Err e, st')
      | (Ok hands, st') =>
          (make_batch (Z.to_nat n_samples)
             (Z.to_nat (n_windows_past (self st) + 1)) hands, st')
      end
  end.

(** A dataset of ten windows with three windows of context: one file of
    four windows between two paddings of three. *)
Definition win_left : window := [<[39%nat := true]> (replicate 88 false); replicate 88 false].
Definition win_right : window := [replicate 88 false; <[39%nat := true]> (replicate 88 false)].
Definition win_both : window :=
  [<[39%nat := true]> (replicate 88 false); <[39%nat := true]> (replicate 88 false)].
Definition four_windows : tensor := [win_left; win_both; win_right; zero_window].

(** A tape that counts: 0, 1, 2, ... *)
Definition counting : rng := {| tape := Z.of_nat; cursor := 0 |}.

(** ** Datasets as [Dataset.__init__] builds them *)

(** What the constructor guarantees: a padding that is not negative, a
    padded array at least as long as its two paddings, windows of shape
    (2, 88). *)
Definition wf_dataset (d : Dataset) : Prop :=
  0 ≤ n_windows_past d
  ∧ 2 * n_windows_past d ≤ Z.of_nat (length (data d))
  ∧ has_shape (data d) = true.

(** The start index of draw number [s] of a call made in state [g]. *)
Definition draw (d : Dataset) (g : rng) (s : nat) : Z :=
  tape g (cursor g + s)%nat `mod` (Z.of_nat (length (data d)) - n_windows_past d).

(** [self.data[start : start + self.n_windows_past + 1]] *)
Definition window_slice (d : Dataset) (start : Z) : tensor :=
  py_slice start (start + n_windows_past d + 1) (data d).

(** The array [hands] after the loop. *)
Definition sampled (d : Dataset) (g : rng) (n : nat) : list tensor :=
  (λ s, window_slice d (draw d g s)) <$> seq 0 n.

(** ** The batch built from [hands] *)

(** [y[s, p]] as an optional cell *)
Definition cell2 {A} (y : list (list A)) (s p : nat) : option A :=
  r ← y !! s; (r : list A) !! p.

(** What the three masked assignments, in their order, leave in a cell
    whose hand-0 and hand-1 masks are [b0] and [b1]. *)
Definition label_of (b0 b1 : bool) : label :=
  if b0 && b1 then Num 0 else if b1 then Num 1 else if b0 then Num (-1) else NaN.

(** The dataset of ten windows and context three as the constructor builds
    it, and the dataset of one file that holds no window. *)
Definition ds10 : Dataset :=
  {| n_windows_past := 3;
     data := replicate 3 zero_window ++ four_windows ++ replicate 3 zero_window |}.
Definition ds_empty : Dataset := {| n_windows_past := 0; data := [] |}.

(** * Further inputs and notions *)

(** ** The files under a path *)

(** [get_files_from_path(path, extensions)], with [os.path.isfile],
    [os.path.join] and [glob.glob] as the file system at hand answers
    them. *)
Definition get_files_from_path_os (isfile : string → bool)
    (join : string → string → string) (glob : string → list string)
    (path : string) (extensions : list string) : result (list string) :=
  if isfile path then Ok [path]
  else
    let files :=
      foldl (λ files file_type, files ++ glob (join path file_type)) [] extensions in
    if (length files =? 0)%nat then Err "FileNotFoundError" else Ok files.

(** A directory that holds a file matching both patterns and one matching
    the second only. *)
Definition glob_example (pattern : string) : list string :=
  if decide (pattern = "dir/*.mid"%string) then ["dir/a.mid"%string]
  else if decide (pattern = "dir/*.mi*"%string)
       then ["dir/a.mid"%string; "dir/b.midi"%string]
       else [].
Definition join_example (path name : string) : string := path +:+ "/" +:+ name.

(** ** Further MIDI files and disks *)

(** The notes of [midi60_72] in another order, with one played twice and a
    third track. *)
Definition midi60_72_shuffled : PrettyMIDI :=
  {| instruments := [ {| notes := [note60; note60] |};
                      {| notes := [note72] |};
                      {| notes := [note_high] |} ];
     get_end_time := 2 # 10 |}.

(** A note of pitch 20, one key below the lowest key of the piano. *)
Definition note_low : Note := {| start := 0; end_ := 5 # 100; pitch := 20 |}.
Definition midi_low : PrettyMIDI :=
  {| instruments := [ {| notes := [note_low] |}; {| notes := [] |} ];
     get_end_time := 5 # 100 |}.

(** A file whose end time is a whole second, and one that ends at once. *)
Definition midi_one_second : PrettyMIDI :=
  {| instruments := [ {| notes := [] |}; {| notes := [] |} ]; get_end_time := 1 |}.
Definition midi_no_time : PrettyMIDI :=
  {| instruments := [ {| notes := [] |}; {| notes := [] |} ]; get_end_time := 0 |}.

(** A file that cannot be encoded: it has a single track. *)
Definition midi_one_track : PrettyMIDI :=
  {| instruments := [ {| notes := [note60] |} ]; get_end_time := 5 # 100 |}.
Definition three_files : list (string * PrettyMIDI) :=
  [("a.mid"%string, midi60); ("bad.mid"%string, midi_one_track);
   ("c.mid"%string, midi60_72)].
Definition empty_disk : disk := {| npy_files := ∅; debug_log := [] |}.

(** ** Further arrays *)

(** An array of another shape than (n, 2, 88): its window has three hands. *)
Definition three_hands : tensor := [replicate 3 (replicate 88 false)].

(** ** Characters of a name *)

(** Whether a character occurs in a string. *)
Fixpoint has_char (c : ascii) (s : string) : bool :=
  match s with
  | EmptyString => false
  | String c' s' => Ascii.eqb c c' || has_char c s'
  end.

(** * Properties of the encoder *)

(** ** The encoder on the scenario *)

Example encode_midi60_len : length <$> encode_ms midi60 20 = Ok 3%nat.
Proof. vm_compute. reflexivity. Qed.

Example encode_midi60_cells :
  (λ t, (cell t 0 0 39, cell t 1 0 39, cell t 2 0 39, cell t 3 0 39, cell t 2 0 38))
    <$> encode_ms midi60_72 20
  = Ok (Some true, Some true, Some true, Some false, Some false).
Proof. vm_compute. reflexivity. Qed.

(** ** Cells of the arrays the encoder builds *)

Lemma cell_zeros (n w h k : nat) :
  cell (replicate n zero_window) w h k
  = if decide (w < n ∧ h < 2 ∧ k < 88)%nat then Some false else None.
Proof.
  unfold cell, zero_window.
  destruct (decide (w < n ∧ h < 2 ∧ k < 88)%nat) as [(Hw & Hh & Hk)|Hn].
  - rewrite lookup_replicate_2 by done. cbn [mbind option_bind].
    rewrite lookup_replicate_2 by done. cbn [mbind option_bind].
    by rewrite lookup_replicate_2.
  - destruct (decide (w < n)%nat) as [Hw|Hw].
    + rewrite lookup_replicate_2 by done. cbn [mbind option_bind].
      destruct (decide (h < 2)%nat) as [Hh|Hh].
      * rewrite lookup_replicate_2 by done. cbn [mbind option_bind].
        apply lookup_replicate_None. lia.
      * by rewrite (proj1 (lookup_replicate_None 2 _ h)) by lia.
    + by rewrite (proj1 (lookup_replicate_None n _ w)) by lia.
Qed.

Lemma cell_set_true (hand k : nat) (win : window) (h' k' : nat) :
  (r ← set_true hand k win !! h'; (r : row) !! k')
  = (λ b, b || (bool_decide (hand = h') && bool_decide (k = k')))
      <$> (r ← win !! h'; (r : row) !! k').
Proof.
  unfold set_true. rewrite list_lookup_alter.
  destruct (decide (hand = h')) as [->|Hne].
  - rewrite bool_decide_eq_true_2 by done.
    destruct (win !! h') as [r|]; simpl; [|done].
    rewrite list_lookup_insert.
    destruct (decide (k = k' ∧ (k < length r)%nat)) as [[-> Hlt]|Hn].
    + rewrite bool_decide_eq_true_2 by done.
      destruct (lookup_lt_is_Some_2 r k' Hlt) as [b ->]. simpl.
      by rewrite orb_true_r.
    + destruct (r !! k') as [b|] eqn:Hb; simpl; [|done].
      rewrite bool_decide_eq_false_2; [by rewrite orb_false_r|].
      intros ->. apply Hn. split; [done|]. by eapply lookup_lt_Some.
  - rewrite bool_decide_eq_false_2 by done.
    destruct (win !! h') as [r|]; simpl; [|done].
    destruct (r !! k'); simpl; [|done]. by rewrite orb_false_r.
Qed.

Lemma cell_assign_slice (lo hi hand k : nat) (t : tensor) (w h' k' : nat) :
  cell (assign_slice lo hi hand k t) w h' k'
  = (λ b, b || (bool_decide (lo ≤ w < hi)%nat
                && (bool_decide (hand = h') && bool_decide (k = k'))))
      <$> cell t w h' k'.
Proof.
  unfold cell, assign_slice. rewrite list_lookup_imap.
  destruct (t !! w) as [win|]; simpl; [|done].
  destruct (bool_decide (lo ≤ w < hi)%nat); simpl.
  - apply cell_set_true.
  - destruct (win !! h') as [r|]; simpl; [|done].
    destruct (r !! k'); simpl; [|done]. by rewrite orb_false_r.
Qed.

Lemma length_assign_slice (lo hi hand k : nat) (t : tensor) :
  length (assign_slice lo hi hand k t) = length t.
Proof. apply length_imap. Qed.

(** ** What the note loop writes *)

Lemma py_index_cases (len : nat) (i : Z) :
  (∃ k, py_index len i = Ok k ∧ (k < len)%nat) ∨ py_index len i = Err "IndexError".
Proof.
  unfold py_index.
  destruct ((0 <=? i) && (i <? Z.of_nat len)) eqn:E1.
  - left. eexists; split; [done|].
    apply andb_prop in E1 as [H1%Z.leb_le H2%Z.ltb_lt]. lia.
  - destruct ((- Z.of_nat len <=? i) && (i <? 0)) eqn:E2; [|by right].
    left. eexists; split; [done|].
    apply andb_prop in E2 as [H1%Z.leb_le H2%Z.ltb_lt]. lia.
Qed.

Lemma write_notes_Ok (sps : Q) (hand : nat) (ns : list Note) (t : tensor) :
  Forall (λ note, is_Ok (pitch_offset note)) ns →
  ∃ t', write_notes sps hand t ns = Ok t' ∧ length t' = length t ∧
        ∀ w h k, cell t' w h k
                 = (λ b, b || existsb (λ note, writes (length t) sps hand note w h k) ns)
                     <$> cell t w h k.
Proof.
  revert t. induction ns as [|note ns IH]; intros t Hall.
  - exists t. repeat split; [done..|]. intros w h k. simpl.
    destruct (cell t w h k); simpl; [|done]. by rewrite orb_false_r.
  - apply Forall_cons in Hall as [[k0 Hk0] Hall]. simpl.
    unfold write_note. fold (pitch_offset note). rewrite Hk0. simpl.
    set (t1 := assign_slice _ _ hand k0 t).
    destruct (IH t1 Hall) as (t' & Hrun & Hlen & Hcell).
    assert (Hlen1 : length t1 = length t) by apply length_assign_slice.
    exists t'. split; [done|]. split; [congruence|].
    intros w h k. rewrite Hcell. unfold t1 at 2. rewrite cell_assign_slice.
    rewrite Hlen1. unfold writes at 2. rewrite Hk0.
    destruct (cell t w h k) as [b|]; simpl; [|done].
    f_equal. rewrite <- orb_assoc. f_equal. f_equal. f_equal. f_equal.
    apply bool_decide_ext. split; [congruence|]. by intros [= ->].
Qed.

Lemma write_notes_Err (sps : Q) (hand : nat) (ns : list Note) (t : tensor) :
  Exists (λ note, ¬ is_Ok (pitch_offset note)) ns →
  write_notes sps hand t ns = Err "IndexError".
Proof.
  revert t. induction ns as [|note ns IH]; intros t Hex.
  - by apply Exists_nil in Hex.
  - simpl. unfold write_note. fold (pitch_offset note).
    destruct (py_index_cases 88 (pitch note - 21)) as [(k0 & Hk0 & _)|Herr];
      fold (pitch_offset note) in *.
    + rewrite Hk0. simpl. apply IH.
      apply Exists_cons in Hex as [Hn|Hex]; [|done].
      destruct Hn. by exists k0.
    + by rewrite Herr.
Qed.

(** ** Well-formed input *)

Lemma valid_note_spec (note : Note) :
  valid_note note = true ↔
  (0 <= start note)%Q ∧ (start note < end_ note)%Q ∧ 21 ≤ pitch note ≤ 108.
Proof.
  unfold valid_note. rewrite !andb_true_iff, negb_true_iff, Qle_bool_iff.
  rewrite Z.leb_le, Z.leb_le.
  split.
  - intros [[[H1 H2] H3] H4]. repeat split; [done| |done..].
    apply Qnot_le_lt. intros Hle%Qle_bool_iff. congruence.
  - intros (H1 & H2 & H3 & H4). repeat split; [done| |done..].
    apply not_true_is_false. intros Hle%Qle_bool_iff.
    by apply Qlt_not_le in H2.
Qed.

Lemma samples_per_sec_pos (ms_window : Z) :
  0 < ms_window →
  samples_per_sec ms_window = Ok (1000 / inject_Z ms_window)%Q
  ∧ (0 < 1000 / inject_Z ms_window)%Q.
Proof.
  intros Hpos. unfold samples_per_sec.
  rewrite (proj2 (Z.eqb_neq _ _)) by lia. split; [done|].
  apply Qlt_shift_div_l.
  - unfold Qlt. simpl. lia.
  - rewrite Qmult_0_l. reflexivity.
Qed.

Lemma Qfloor_nonneg (x : Q) : (0 <= x)%Q → 0 ≤ Qfloor x.
Proof. intros H. apply (Qfloor_resp_le 0 x H). Qed.

Lemma Qceiling_nonneg (x : Q) : (0 <= x)%Q → 0 ≤ Qceiling x.
Proof. intros H. apply (Qceiling_resp_le 0 x H). Qed.

Lemma valid_note_idx (sps : Q) (note : Note) :
  (0 < sps)%Q → valid_note note = true →
  0 ≤ start_idx sps note ∧ 0 ≤ end_idx sps note
  ∧ pitch_offset note = Ok (Z.to_nat (pitch note - 21)).
Proof.
  intros Hsps (Hs & Hlt & Hp)%valid_note_spec.
  assert (0 <= end_ note)%Q by (apply Qlt_le_weak; by eapply Qle_lt_trans).
  repeat split.
  - apply Qfloor_nonneg, Qmult_le_0_compat; [done|by apply Qlt_le_weak].
  - apply Qceiling_nonneg, Qmult_le_0_compat; [done|by apply Qlt_le_weak].
  - unfold pitch_offset, py_index.
    rewrite (proj2 (Z.leb_le 0 _)) by lia.
    by rewrite (proj2 (Z.ltb_lt _ _)) by lia.
Qed.

(** A bound that is not negative is only clamped: inside the array it
    compares like the bound itself. *)
Lemma py_slice_bound_le (len : nat) (i : Z) (w : nat) :
  0 ≤ i → (w < len)%nat → (py_slice_bound len i ≤ w)%nat ↔ i ≤ Z.of_nat w.
Proof.
  intros Hi Hw. unfold py_slice_bound.
  rewrite (proj2 (Z.ltb_ge _ _)) by lia. lia.
Qed.

Lemma py_slice_bound_gt (len : nat) (i : Z) (w : nat) :
  0 ≤ i → (w < len)%nat → (w < py_slice_bound len i)%nat ↔ Z.of_nat w < i.
Proof.
  intros Hi Hw. unfold py_slice_bound.
  rewrite (proj2 (Z.ltb_ge _ _)) by lia. lia.
Qed.

Lemma writes_valid (len : nat) (sps : Q) (hand : nat) (note : Note) (w h k : nat) :
  (0 < sps)%Q → valid_note note = true → (w < len)%nat →
  writes len sps hand note w h k = true ↔
  hand = h ∧ pitch note - 21 = Z.of_nat k
  ∧ start_idx sps note ≤ Z.of_nat w < end_idx sps note.
Proof.
  intros Hsps Hv Hw.
  destruct (valid_note_idx sps note Hsps Hv) as (Hs & He & Hk).
  apply valid_note_spec in Hv as (_ & _ & Hp).
  unfold writes. rewrite !andb_true_iff, !bool_decide_eq_true, Hk.
  rewrite py_slice_bound_le, py_slice_bound_gt by done.
  split.
  - intros [[H1 H2] [H3 [= H4]]]. repeat split; [done|lia|done..].
  - intros (H1 & H2 & H3 & H4). repeat split; [done..|]. f_equal. lia.
Qed.

(** ** The array [encode] returns *)

Lemma encode_Ok (midi : PrettyMIDI) (sps : Q) (lh rh : Instrument) :
  instruments midi !! 0%nat = Some lh →
  instruments midi !! 1%nat = Some rh →
  0 ≤ Qceiling (get_end_time midi * sps) →
  Forall (λ note, is_Ok (pitch_offset note)) (notes lh) →
  Forall (λ note, is_Ok (pitch_offset note)) (notes rh) →
  ∃ t, encode midi sps = Ok t
       ∧ length t = Z.to_nat (Qceiling (get_end_time midi * sps))
       ∧ ∀ w h k,
           cell t w h k
           = if decide (w < length t ∧ h < 2 ∧ k < 88)%nat
             then Some (existsb (λ note, writes (length t) sps 0 note w h k) (notes lh)
                        || existsb (λ note, writes (length t) sps 1 note w h k) (notes rh))
             else None.
Proof.
  intros Hl Hr Hn Hlok Hrok.
  unfold encode, py_getitem. rewrite Hl, Hr. cbn [mbind result_bind].
  unfold np_zeros. rewrite (proj2 (Z.ltb_ge _ _)) by done. cbn [mbind result_bind].
  set (n := Z.to_nat (Qceiling (get_end_time midi * sps))).
  destruct (write_notes_Ok sps 0 (notes lh) (replicate n zero_window) Hlok)
    as (t1 & Hrun1 & Hlen1 & Hcell1).
  rewrite Hrun1.
  destruct (write_notes_Ok sps 1 (notes rh) t1 Hrok) as (t2 & Hrun2 & Hlen2 & Hcell2).
  rewrite length_replicate in Hlen1.
  exists t2. split; [done|]. split; [congruence|].
  intros w h k. rewrite Hcell2, Hcell1, cell_zeros, Hlen2, Hlen1, length_replicate.
  destruct (decide (w < n ∧ h < 2 ∧ k < 88)%nat); [|done]. done.
Qed.

Lemma valid_notes_pitch_ok (ns : list Note) :
  forallb valid_note ns = true → Forall (λ note, is_Ok (pitch_offset note)) ns.
Proof.
  intros Hall. apply Forall_forall. intros note Hin.
  assert (Hv : valid_note note = true).
  { rewrite forallb_forall in Hall. apply Hall. by apply list_elem_of_In. }
  apply valid_note_spec in Hv as (_ & _ & Hp).
  unfold is_Ok, pitch_offset, py_index.
  rewrite (proj2 (Z.leb_le 0 _)) by lia.
  rewrite (proj2 (Z.ltb_lt _ _)) by lia. by eexists.
Qed.

Lemma existsb_writes_valid (len : nat) (sps : Q) (hand : nat) (ns : list Note)
    (w h k : nat) :
  (0 < sps)%Q → forallb valid_note ns = true → (w < len)%nat →
  existsb (λ note, writes len sps hand note w h k) ns = true ↔
  hand = h ∧ ∃ note, note ∈ ns ∧ pitch note - 21 = Z.of_nat k
                     ∧ start_idx sps note ≤ Z.of_nat w < end_idx sps note.
Proof.
  intros Hsps Hall Hw. rewrite existsb_exists. rewrite forallb_forall in Hall.
  split.
  - intros (note & Hin & Hwr).
    apply writes_valid in Hwr as (Hh & Hk & Hint); [|done|by apply Hall|done].
    split; [done|]. exists note. by rewrite list_elem_of_In.
  - intros (Hh & note & Hin%list_elem_of_In & Hk & Hint).
    exists note. split; [done|]. apply writes_valid; [done|by apply Hall|done|done].
Qed.

(** The encoder on well-formed input: it returns an array of
    [ceil(end_time * rate)] windows whose cells are the note intervals. *)
Lemma encode_ms_valid (midi : PrettyMIDI) (ms_window : Z) :
  valid_tracks midi = true → 0 < ms_window →
  ∃ t, encode_ms midi ms_window = Ok t
       ∧ length t = Z.to_nat (Qceiling (get_end_time midi * (1000 / inject_Z ms_window)))
       ∧ 0 ≤ Qceiling (get_end_time midi * (1000 / inject_Z ms_window))
       ∧ ∀ w h k, (w < length t)%nat → (h < 2)%nat → (k < 88)%nat →
           ∃ b, cell t w h k = Some b
                ∧ (b = true ↔
                   ∃ note, note ∈ hand_notes midi h
                           ∧ pitch note - 21 = Z.of_nat k
                           ∧ start_idx (1000 / inject_Z ms_window) note ≤ Z.of_nat w
                             < end_idx (1000 / inject_Z ms_window) note).
Proof.
  intros Hv Hms.
  destruct (samples_per_sec_pos ms_window Hms) as [Hsps Hpos].
  set (rate := (1000 / inject_Z ms_window)%Q) in *.
  unfold valid_tracks in Hv.
  destruct (instruments midi) as [|lh [|rh [|? ?]]] eqn:Hi; try done.
  apply andb_prop in Hv as [[Hl Hr]%andb_prop Hend%Qle_bool_iff].
  assert (Hn : 0 ≤ Qceiling (get_end_time midi * rate)).
  { apply Qceiling_nonneg, Qmult_le_0_compat; [done|by apply Qlt_le_weak]. }
  destruct (encode_Ok midi rate lh rh) as (t & Hrun & Hlen & Hcell);
    [by rewrite Hi|by rewrite Hi|done|by apply valid_notes_pitch_ok..|].
  exists t. unfold encode_ms. rewrite Hsps. cbn [mbind result_bind].
  repeat split; [done..|].
  intros w h k Hw Hh Hk. eexists. split.
  { rewrite Hcell. rewrite decide_True by done. reflexivity. }
  rewrite orb_true_iff.
  rewrite !existsb_writes_valid by done.
  unfold hand_notes. rewrite Hi.
  destruct h as [|[|h]]; [| |lia]; simpl; split.
  - intros [[_ H]|[? _]]; [done|lia].
  - intros H. by left.
  - intros [[? _]|[_ H]]; [lia|done].
  - intros H. by right.
Qed.



(** ** The length of the encoded array *)

Lemma end_le_foldr_Qmax (ns : list Note) (note : Note) :
  note ∈ ns → (end_ note <= foldr (λ n acc, Qmax (end_ n) acc) 0 ns)%Q.
Proof.
  induction ns as [|n ns IH]; intros Hin.
  - by apply elem_of_nil in Hin.
  - apply elem_of_cons in Hin as [->|Hin]; simpl.
    + apply Q.le_max_l.
    + eapply Qle_trans; [by apply IH|apply Q.le_max_r].
Qed.

Lemma end_le_track_end_time (midi : PrettyMIDI) (h : nat) (note : Note) :
  (h < 2)%nat → note ∈ hand_notes midi h → (end_ note <= track_end_time midi)%Q.
Proof.
  intros Hh Hin. apply end_le_foldr_Qmax. apply elem_of_app.
  destruct h as [|[|h]]; [by left|by right|lia].
Qed.

Lemma hand_notes_valid (midi : PrettyMIDI) (h : nat) (note : Note) :
  valid_tracks midi = true → note ∈ hand_notes midi h → valid_note note = true.
Proof.
  unfold valid_tracks, hand_notes. intros Hv Hin.
  destruct (instruments midi) as [|lh [|rh [|? ?]]]; try done.
  apply andb_prop in Hv as [[Hl Hr]%andb_prop _].
  rewrite forallb_forall in Hl. rewrite forallb_forall in Hr.
  destruct h as [|[|h]]; simpl in Hin.
  - by apply Hl, list_elem_of_In.
  - by apply Hr, list_elem_of_In.
  - by apply elem_of_nil in Hin.
Qed.



(** ** Malformed input *)

Lemma write_notes_cases (sps : Q) (hand : nat) (ns : list Note) (t : tensor) :
  is_Ok (write_notes sps hand t ns) ∨ write_notes sps hand t ns = Err "IndexError".
Proof.
  revert t. induction ns as [|note ns IH]; intros t; simpl.
  - left. by eexists.
  - unfold write_note.
    destruct (py_index_cases 88 (pitch note - 21)) as [(k0 & -> & _)| ->].
    + apply IH.
    + by right.
Qed.

Lemma pitch_offset_out_of_range (note : Note) :
  pitch note - 21 < -88 ∨ 88 ≤ pitch note - 21 → ¬ is_Ok (pitch_offset note).
Proof.
  intros Hout [k Hk]. unfold pitch_offset, py_index in Hk.
  destruct ((0 <=? pitch note - 21) && (pitch note - 21 <? Z.of_nat 88)) eqn:E1.
  { apply andb_prop in E1 as [H1%Z.leb_le H2%Z.ltb_lt]. lia. }
  destruct ((- Z.of_nat 88 <=? pitch note - 21) && (pitch note - 21 <? 0)) eqn:E2.
  { apply andb_prop in E2 as [H1%Z.leb_le H2%Z.ltb_lt]. lia. }
  done.
Qed.

Lemma encode_pitch_out_of_range (midi : PrettyMIDI) (sps : Q) (h : nat) (note : Note) :
  (2 ≤ length (instruments midi))%nat →
  0 ≤ Qceiling (get_end_time midi * sps) →
  (h < 2)%nat → note ∈ hand_notes midi h →
  pitch note - 21 < -88 ∨ 88 ≤ pitch note - 21 →
  encode midi sps = Err "IndexError".
Proof.
  intros Hlen Hn Hh Hin Hout%pitch_offset_out_of_range.
  unfold encode, py_getitem, hand_notes in *.
  destruct (instruments midi) as [|lh [|rh rest]]; simpl in Hlen; [lia..|].
  cbn [lookup list_lookup mbind result_bind].
  unfold np_zeros. rewrite (proj2 (Z.ltb_ge _ _)) by done.
  cbn [mbind result_bind].
  destruct h as [|[|h]]; [| |lia]; simpl in Hin.
  - rewrite write_notes_Err; [done|]. apply Exists_exists. eauto.
  - destruct (write_notes_cases sps 0 (notes lh)
                (replicate (Z.to_nat (Qceiling (get_end_time midi * sps))) zero_window))
      as [[t1 ->]| ->]; [|done].
    cbn [mbind result_bind].
    rewrite write_notes_Err; [done|]. apply Exists_exists. eauto.
Qed.

Lemma encode_any_times (midi : PrettyMIDI) (sps : Q) :
  (2 ≤ length (instruments midi))%nat →
  0 ≤ Qceiling (get_end_time midi * sps) →
  (∀ h note, (h < 2)%nat → note ∈ hand_notes midi h → 21 ≤ pitch note ≤ 108) →
  is_Ok (encode midi sps).
Proof.
  intros Hlen Hn Hp.
  destruct (instruments midi) as [|lh [|rh rest]] eqn:Hi; simpl in Hlen; [lia..|].
  assert (Hok : ∀ h hand, (h < 2)%nat → instruments midi !! h = Some hand →
                Forall (λ note, is_Ok (pitch_offset note)) (notes hand)).
  { intros h hand Hh Hhand. apply Forall_forall. intros note Hin.
    assert (21 ≤ pitch note ≤ 108).
    { apply (Hp h); [done|]. unfold hand_notes. by rewrite Hhand. }
    unfold is_Ok, pitch_offset, py_index.
    rewrite (proj2 (Z.leb_le 0 _)) by lia.
    rewrite (proj2 (Z.ltb_lt _ _)) by lia. by eexists. }
  destruct (encode_Ok midi sps lh rh) as (t & Hrun & _);
    [by rewrite Hi|by rewrite Hi|done| | |].
  - apply (Hok 0%nat); [lia|by rewrite Hi].
  - apply (Hok 1%nat); [lia|by rewrite Hi].
  - by exists t.
Qed.

(** C4, as stated, fails: a note with end <= start is not rejected, the
    encoder returns a tensor for it. *)
Lemma encode_accepts_inverted_note :
  ¬ (∀ midi ms_window h note,
       note ∈ hand_notes midi h → (end_ note <= start note)%Q →
       ∃ cls, encode_ms midi ms_window = Err cls).
Proof.
  intros Hclaim.
  destruct (Hclaim midi_inverted 20 0%nat note_inverted) as [cls Herr].
  - unfold hand_notes. simpl. apply list_elem_of_here.
  - apply Qle_bool_iff. reflexivity.
  - revert Herr. vm_compute. discriminate.
Qed.

(** C4, amended. The encoder has no error class of its own: what it rejects
    is rejected by the operation that fails.  [ms_window = 0] raises
    ZeroDivisionError; fewer than two tracks raise IndexError; a note of
    pitch 109 or more raises IndexError, and no tensor is produced in these
    cases.  Note times are not checked: whatever the start and end of its
    notes, a file with two tracks of pitches 21..108, a positive [ms_window]
    and an end time that is not negative is encoded. *)
Theorem encode_malformed (midi : PrettyMIDI) (ms_window : Z) :
  (ms_window = 0 → encode_ms midi ms_window = Err "ZeroDivisionError")
  ∧ (ms_window ≠ 0 → (length (instruments midi) < 2)%nat →
     encode_ms midi ms_window = Err "IndexError")
  ∧ (0 < ms_window → (2 ≤ length (instruments midi))%nat →
     Qle_bool 0 (get_end_time midi) = true →
     (∃ h note, (h < 2)%nat ∧ note ∈ hand_notes midi h ∧ 109 ≤ pitch note) →
     encode_ms midi ms_window = Err "IndexError")
  ∧ (0 < ms_window → (2 ≤ length (instruments midi))%nat →
     Qle_bool 0 (get_end_time midi) = true →
     (∀ h note, (h < 2)%nat → note ∈ hand_notes midi h → 21 ≤ pitch note ≤ 108) →
     is_Ok (encode_ms midi ms_window)).
Proof.
  assert (Hn : 0 < ms_window → Qle_bool 0 (get_end_time midi) = true →
               samples_per_sec ms_window = Ok (1000 / inject_Z ms_window)%Q
               ∧ 0 ≤ Qceiling (get_end_time midi * (1000 / inject_Z ms_window))).
  { intros Hms Hend%Qle_bool_iff.
    destruct (samples_per_sec_pos ms_window Hms) as [Hsps Hpos]. split; [done|].
    apply Qceiling_nonneg, Qmult_le_0_compat; [done|by apply Qlt_le_weak]. }
  repeat split.
  - intros ->. reflexivity.
  - intros Hms Hlen. unfold encode_ms, samples_per_sec.
    rewrite (proj2 (Z.eqb_neq _ _)) by done. cbn [mbind result_bind].
    unfold encode, py_getitem.
    destruct (instruments midi) as [|lh [|rh rest]]; simpl in Hlen; [done..|lia].
  - intros Hms Hlen Hend (h & note & Hh & Hin & Hp).
    destruct (Hn Hms Hend) as [Hsps Hc].
    unfold encode_ms. rewrite Hsps. cbn [mbind result_bind].
    apply (encode_pitch_out_of_range midi _ h note); [done..|lia].
  - intros Hms Hlen Hend Hp.
    destruct (Hn Hms Hend) as [Hsps Hc].
    unfold encode_ms. rewrite Hsps. cbn [mbind result_bind].
    by apply encode_any_times.
Qed.

Lemma encode_malformed_witness :
  encode_ms midi_no_track 20 = Err "IndexError"
  ∧ encode_ms midi_high 20 = Err "IndexError"
  ∧ is_Ok (encode_ms midi_inverted 20)
  ∧ is_Ok (encode_ms midi_empty_note 20).
Proof.
  split; [|split; [|split]].
  - destruct (encode_malformed midi_no_track 20) as (_ & H & _).
    apply H; [lia|]. cbn. lia.
  - destruct (encode_malformed midi_high 20) as (_ & _ & H & _).
    apply H; [lia|cbn; lia|reflexivity|].
    exists 1%nat, note_high. split; [lia|]. split; [|cbn; lia].
    unfold hand_notes. cbn. apply list_elem_of_further, list_elem_of_here.
  - destruct (encode_malformed midi_inverted 20) as (_ & _ & _ & H).
    apply H; [lia|cbn; lia|reflexivity|].
    intros h note Hh Hin. unfold hand_notes in Hin.
    destruct h as [|[|h]]; cbn in Hin.
    + apply list_elem_of_singleton in Hin as ->. cbn. lia.
    + by apply elem_of_nil in Hin.
    + by apply elem_of_nil in Hin.
  - destruct (encode_malformed midi_empty_note 20) as (_ & _ & _ & H).
    apply H; [lia|cbn; lia|reflexivity|].
    intros h note Hh Hin. unfold hand_notes in Hin.
    destruct h as [|[|h]]; cbn in Hin.
    + apply list_elem_of_singleton in Hin as ->. cbn. lia.
    + by apply elem_of_nil in Hin.
    + by apply elem_of_nil in Hin.
Defined.

(** ** The artifact cache *)

Lemma string_length_app (s1 s2 : string) :
  String.length (s1 +:+ s2) = (String.length s1 + String.length s2)%nat.
Proof. induction s1 as [|a s1 IH]; simpl; [done|by rewrite IH]. Qed.

Lemma string_app_inj_r (t s1 s2 : string) : s1 +:+ t = s2 +:+ t → s1 = s2.
Proof.
  revert s2. induction s1 as [|a s1 IH]; intros [|b s2] Heq.
  - done.
  - apply (f_equal String.length) in Heq.
    rewrite !string_length_app in Heq. simpl in Heq. lia.
  - apply (f_equal String.length) in Heq.
    rewrite !string_length_app in Heq. simpl in Heq. lia.
  - change (String a (s1 +:+ t) = String b (s2 +:+ t)) in Heq.
    injection Heq as -> Heq. f_equal. by apply IH.
Qed.

Lemma npy_name_inj (ms_window : Z) (f1 f2 : string) :
  npy_name f1 ms_window = npy_name f2 ms_window → f1 = f2.
Proof. unfold npy_name. apply string_app_inj_r. Qed.

Lemma converting_msg_inj (f1 f2 : string) :
  converting_msg f1 = converting_msg f2 → f1 = f2.
Proof.
  unfold converting_msg. intros Heq%(inj (String.app _)).
  by apply string_app_inj_r in Heq.
Qed.

Lemma reencodes_spec (ms_window : Z) (overwrite : bool) (d : disk)
    (file : string * PrettyMIDI) :
  reencodes ms_window overwrite d file = true ↔
  overwrite = true ∨ npy_files d !! npy_name file.1 ms_window = None.
Proof.
  unfold reencodes. rewrite orb_true_iff, negb_true_iff, bool_decide_eq_false.
  by rewrite <- eq_None_not_Some.
Qed.

(** What one iteration does to the disk. *)
Lemma convert_file_skip (ms_window : Z) (sps : Q) (overwrite : bool)
    (file : string * PrettyMIDI) (d : disk) :
  reencodes ms_window overwrite d file = false →
  convert_file ms_window sps overwrite file d = (Ok (), d).
Proof. intros H. unfold convert_file. by rewrite H. Qed.

Lemma convert_file_encode (ms_window : Z) (sps : Q) (overwrite : bool)
    (file : string * PrettyMIDI) (d : disk) :
  reencodes ms_window overwrite d file = true →
  convert_file ms_window sps overwrite file d
  = match encode file.2 sps with
    | Ok hands =>
        (Ok (), {| npy_files := <[npy_name file.1 ms_window := hands]> (npy_files d);
                   debug_log := debug_log d ++ [converting_msg file.1] |})
    | Err e =>
        (Err e, {| npy_files := npy_files d;
                   debug_log := debug_log d ++ [converting_msg file.1] |})
    end.
Proof. intros H. unfold convert_file. rewrite H. by destruct (encode _ _). Qed.

(** A successful run over a list of distinct files, from any disk. *)
Lemma convert_files_Ok (ms_window : Z) (sps : Q) (overwrite : bool)
    (files : list (string * PrettyMIDI)) (d d' : disk) :
  NoDup files.*1 →
  convert_files ms_window sps overwrite files d = (Ok (), d') →
  debug_log d'
  = debug_log d ++ ((λ f, converting_msg f.1)
                      <$> List.filter (reencodes ms_window overwrite d) files)
  ∧ (∀ key, (∀ file, file ∈ files → key ≠ npy_name file.1 ms_window) →
            npy_files d' !! key = npy_files d !! key)
  ∧ (∀ file, file ∈ files →
       if reencodes ms_window overwrite d file
       then ∃ hands, encode file.2 sps = Ok hands
                     ∧ npy_files d' !! npy_name file.1 ms_window = Some hands
       else npy_files d' !! npy_name file.1 ms_window
            = npy_files d !! npy_name file.1 ms_window).
Proof.
  revert d. induction files as [|f rest IH]; intros d Hnd Hrun.
  - simpl in Hrun. injection Hrun as <-. simpl. rewrite app_nil_r.
    split; [done|]. split; [done|].
    intros file Hin. by apply elem_of_nil in Hin.
  - rewrite fmap_cons in Hnd. apply NoDup_cons in Hnd as [Hf Hnd].
    simpl in Hrun.
    destruct (convert_file ms_window sps overwrite f d) as [[[]|e] d1] eqn:Hstep;
      [|done].
    destruct (IH d1 Hnd Hrun) as (Hlog & Hframe & Hfiles).
    (* the step changes the disk at the key of [f] only *)
    assert (Hd1 : ∀ key, key ≠ npy_name f.1 ms_window →
                         npy_files d1 !! key = npy_files d !! key).
    { intros key Hne. destruct (reencodes ms_window overwrite d f) eqn:Hre.
      - rewrite convert_file_encode in Hstep by done.
        destruct (encode f.2 sps); [|done]. injection Hstep as <-. simpl.
        by rewrite lookup_insert_ne.
      - rewrite convert_file_skip in Hstep by done. by injection Hstep as <-. }
    assert (Hrest : ∀ file, file ∈ rest →
                      npy_name file.1 ms_window ≠ npy_name f.1 ms_window).
    { intros file Hin Heq%npy_name_inj. apply Hf. rewrite <- Heq.
      by apply list_elem_of_fmap_2. }
    assert (Hre_rest : ∀ file, file ∈ rest →
              reencodes ms_window overwrite d1 file = reencodes ms_window overwrite d file).
    { intros file Hin. unfold reencodes. by rewrite Hd1 by by apply Hrest. }
    split; [|split].
    + rewrite Hlog. simpl.
      assert (Hfilter : List.filter (reencodes ms_window overwrite d1) rest
                        = List.filter (reencodes ms_window overwrite d) rest).
      { apply List.filter_ext_in. intros file Hin%list_elem_of_In. by apply Hre_rest. }
      rewrite Hfilter.
      destruct (reencodes ms_window overwrite d f) eqn:Hre.
      * rewrite convert_file_encode in Hstep by done.
        destruct (encode f.2 sps); [|done]. injection Hstep as <-. simpl.
        by rewrite <- app_assoc.
      * rewrite convert_file_skip in Hstep by done. by injection Hstep as <-.
    + intros key Hkey. rewrite Hframe.
      * apply Hd1. apply Hkey, list_elem_of_here.
      * intros file Hin. by apply Hkey, list_elem_of_further.
    + intros file [->|Hin]%elem_of_cons.
      * assert (Hkeep : npy_files d' !! npy_name f.1 ms_window
                        = npy_files d1 !! npy_name f.1 ms_window).
        { apply Hframe. intros file Hin Heq. by apply (Hrest file Hin). }
        rewrite Hkeep.
        destruct (reencodes ms_window overwrite d f) eqn:Hre.
        -- rewrite convert_file_encode in Hstep by done.
           destruct (encode f.2 sps) as [hands|]; [|done]. injection Hstep as <-.
           exists hands. split; [done|]. simpl. by rewrite lookup_insert_eq.
        -- rewrite convert_file_skip in Hstep by done. by injection Hstep as <-.
      * specialize (Hfiles file Hin). rewrite Hre_rest in Hfiles by done.
        destruct (reencodes ms_window overwrite d file); [done|].
        rewrite Hfiles. by apply Hd1, Hrest.
Qed.

(** C7. On a run of [convert] that completes over distinct source files, a
    file is re-encoded (its conversion is logged and its artifact becomes
    the encoding of the file) if and only if [overwrite] is set or no
    artifact exists under its [(file, ms_window)] key; when the artifact
    exists and [overwrite] is not set the file is skipped and its artifact
    is left as it was.  A skipped iteration leaves the whole disk as it
    was. *)
Theorem convert_overwrite_policy (found : list (string * PrettyMIDI))
    (ms_window : Z) (overwrite : bool) (d d' : disk) :
  NoDup found.*1 →
  convert found ms_window overwrite d = (Ok (), d') →
  (∃ new_log, debug_log d' = debug_log d ++ new_log ∧
     ∀ file, file ∈ found →
       let key := npy_name file.1 ms_window in
       (converting_msg file.1 ∈ new_log ↔
          overwrite = true ∨ npy_files d !! key = None)
       ∧ (overwrite = true ∨ npy_files d !! key = None →
            ∃ hands, encode_ms file.2 ms_window = Ok hands
                     ∧ npy_files d' !! key = Some hands)
       ∧ (overwrite = false → is_Some (npy_files d !! key) →
            npy_files d' !! key = npy_files d !! key))
  ∧ (∀ sps file d0, overwrite = false →
       is_Some (npy_files d0 !! npy_name file.1 ms_window) →
       convert_file ms_window sps overwrite file d0 = (Ok (), d0)).
Proof.
  intros Hnd Hrun. split.
  - unfold convert in Hrun.
    destruct (get_files_from_path found) as [midi_files|] eqn:Hfound; [|done].
    assert (midi_files = found) as ->.
    { unfold get_files_from_path in Hfound. destruct found; [done|]. by injection Hfound. }
    destruct (samples_per_sec ms_window) as [sps|] eqn:Hsps; [|done].
    destruct (convert_files_Ok _ _ _ _ _ _ Hnd Hrun) as (Hlog & _ & Hfiles).
    eexists. split; [exact Hlog|].
    intros file Hin. cbn zeta. specialize (Hfiles file Hin).
    rewrite <- reencodes_spec.
    split; [|split].
    + split.
      * intros (f' & Hmsg%converting_msg_inj & Hf')%list_elem_of_fmap.
        apply list_elem_of_In, List.filter_In in Hf' as [_ Hre].
        unfold reencodes in *. by rewrite Hmsg.
      * intros Hre. apply list_elem_of_fmap. exists file. split; [done|].
        apply list_elem_of_In, List.filter_In. split; [|done].
        by apply list_elem_of_In.
    + intros Hre. rewrite Hre in Hfiles. unfold encode_ms. by rewrite Hsps.
    + intros -> Hsome.
      destruct (reencodes ms_window false d file) eqn:Hre; [|done].
      apply reencodes_spec in Hre as [?|Hnone]; [done|].
      rewrite Hnone in Hsome. by destruct Hsome.
  - intros sps file d0 -> Hsome. apply convert_file_skip.
    unfold reencodes. by rewrite bool_decide_eq_true_2.
Qed.

Lemma convert_overwrite_policy_witness :
  ∃ d', convert two_files 20 false disk_with_a = (Ok (), d')
        ∧ npy_files d' !! "a.mid_20ms.npy"%string = Some stale.
Proof.
  exists (convert two_files 20 false disk_with_a).2.
  assert (Hrun : convert two_files 20 false disk_with_a
                 = (Ok (), (convert two_files 20 false disk_with_a).2)).
  { vm_compute. reflexivity. }
  split; [exact Hrun|].
  assert (Hnd : NoDup two_files.*1).
  { apply (bool_decide_unpack _). vm_compute. exact I. }
  destruct (convert_overwrite_policy two_files 20 false disk_with_a _ Hnd Hrun)
    as [(new_log & _ & Hfiles) _].
  destruct (Hfiles ("a.mid"%string, midi60)) as (_ & _ & Hkeep).
  { apply list_elem_of_here. }
  assert (Hhas : is_Some (npy_files disk_with_a !! npy_name "a.mid" 20)).
  { exists stale. reflexivity. }
  exact (Hkeep eq_refl Hhas).
Defined.

(** ** Determinism of the encoder *)

(** With [overwrite] set, whether a run completes does not depend on the
    disk it starts from. *)
Lemma convert_files_outcome (ms_window : Z) (sps : Q)
    (files : list (string * PrettyMIDI)) (d1 d2 : disk) :
  (convert_files ms_window sps true files d1).1
  = (convert_files ms_window sps true files d2).1.
Proof.
  revert d1 d2. induction files as [|f rest IH]; intros d1 d2; [done|].
  simpl. rewrite !convert_file_encode by done.
  destruct (encode f.2 sps); [apply IH|done].
Qed.

Lemma convert_outcome (found : list (string * PrettyMIDI)) (ms_window : Z)
    (d1 d2 : disk) :
  (convert found ms_window true d1).1 = (convert found ms_window true d2).1.
Proof.
  unfold convert. destruct (get_files_from_path found); [|done].
  destruct (samples_per_sec ms_window); [|done]. apply convert_files_outcome.
Qed.

(** What a completed run with [overwrite] set leaves on the disk. *)
Lemma convert_Ok_overwrite (found : list (string * PrettyMIDI)) (ms_window : Z)
    (d d' : disk) :
  NoDup found.*1 →
  convert found ms_window true d = (Ok (), d') →
  debug_log d' = debug_log d ++ ((λ f, converting_msg f.1) <$> found)
  ∧ (∀ key, (∀ file, file ∈ found → key ≠ npy_name file.1 ms_window) →
            npy_files d' !! key = npy_files d !! key)
  ∧ (∀ file, file ∈ found →
       ∃ hands, encode_ms file.2 ms_window = Ok hands
                ∧ npy_files d' !! npy_name file.1 ms_window = Some hands).
Proof.
  intros Hnd Hrun. unfold convert in Hrun.
  destruct (get_files_from_path found) as [midi_files|] eqn:Hfound; [|done].
  assert (midi_files = found) as ->.
  { unfold get_files_from_path in Hfound. destruct found; [done|]. by injection Hfound. }
  destruct (samples_per_sec ms_window) as [sps|] eqn:Hsps; [|done].
  destruct (convert_files_Ok _ _ _ _ _ _ Hnd Hrun) as (Hlog & Hframe & Hfiles).
  split; [|split; [done|]].
  - rewrite Hlog. do 2 f_equal.
    clear. induction found as [|f rest IH]; [done|]. simpl. by rewrite IH.
  - intros file Hin. specialize (Hfiles file Hin). simpl in Hfiles.
    unfold encode_ms. by rewrite Hsps.
Qed.

(** C8. Encoding is deterministic and touches nothing but its artifact.
    Two runs of [convert] with [overwrite] set, over the same files and
    [ms_window] but from any two disks, fail or complete alike; when they
    complete, each file's artifact is the same tensor in both, the value of
    the encoder on that file.  A run changes no entry of the disk other than
    the artifacts of its files, adds to the log one line per file, and a
    second run over its result leaves every artifact as the first run made
    it. *)
Theorem encode_deterministic (found : list (string * PrettyMIDI)) (ms_window : Z)
    (d1 d2 : disk) :
  NoDup found.*1 →
  let r1 := convert found ms_window true d1 in
  let r2 := convert found ms_window true d2 in
  r1.1 = r2.1
  ∧ (r1.1 = Ok () →
     (∀ file, file ∈ found →
        ∃ hands, encode_ms file.2 ms_window = Ok hands
                 ∧ npy_files r1.2 !! npy_name file.1 ms_window = Some hands
                 ∧ npy_files r2.2 !! npy_name file.1 ms_window = Some hands)
     ∧ (∀ key, (∀ file, file ∈ found → key ≠ npy_name file.1 ms_window) →
               npy_files r1.2 !! key = npy_files d1 !! key)
     ∧ debug_log r1.2 = debug_log d1 ++ ((λ f, converting_msg f.1) <$> found)
     ∧ npy_files (convert found ms_window true r1.2).2 = npy_files r1.2).
Proof.
  intros Hnd r1 r2.
  assert (Hsame : r1.1 = r2.1) by apply convert_outcome.
  split; [done|]. intros Hok1.
  assert (Hok2 : r2.1 = Ok ()) by congruence.
  assert (Hok3 : (convert found ms_window true r1.2).1 = Ok ()).
  { by rewrite (convert_outcome found ms_window r1.2 d1). }
  destruct r1 as [o1 d1'] eqn:Hr1, r2 as [o2 d2'] eqn:Hr2. simpl in *. subst o1 o2.
  destruct (convert found ms_window true d1') as [o3 d3] eqn:Hr3. simpl in *. subst o3.
  destruct (convert_Ok_overwrite _ _ _ _ Hnd Hr1) as (Hlog1 & Hframe1 & Hfiles1).
  destruct (convert_Ok_overwrite _ _ _ _ Hnd Hr2) as (_ & _ & Hfiles2).
  destruct (convert_Ok_overwrite _ _ _ _ Hnd Hr3) as (_ & Hframe3 & Hfiles3).
  split; [|split; [done|split; [done|]]].
  - intros file Hin.
    destruct (Hfiles1 file Hin) as (hands & Henc & H1).
    destruct (Hfiles2 file Hin) as (hands2 & Henc2 & H2).
    exists hands. repeat split; [done..|]. congruence.
  - apply map_eq. intros key.
    destruct (decide (key ∈ (λ f, npy_name f.1 ms_window) <$> found)) as [Hin|Hnin].
    + apply list_elem_of_fmap in Hin as (file & -> & Hin).
      destruct (Hfiles1 file Hin) as (hands & Henc & ->).
      destruct (Hfiles3 file Hin) as (hands3 & Henc3 & ->). congruence.
    + apply Hframe3. intros file Hin ->. apply Hnin.
      apply list_elem_of_fmap. by exists file.
Qed.

Lemma encode_deterministic_witness :
  (convert two_files 20 true disk_with_a).1
  = (convert two_files 20 true {| npy_files := ∅; debug_log := [] |}).1
  ∧ npy_files (convert two_files 20 true disk_with_a).2 !! npy_name "a.mid" 20
    = npy_files (convert two_files 20 true {| npy_files := ∅; debug_log := [] |}).2
        !! npy_name "a.mid" 20.
Proof.
  assert (Hnd : NoDup two_files.*1).
  { apply (bool_decide_unpack _). vm_compute. exact I. }
  destruct (encode_deterministic two_files 20 disk_with_a
              {| npy_files := ∅; debug_log := [] |} Hnd) as [Hsame Hok].
  split; [exact Hsame|].
  destruct Hok as (Hfiles & _); [vm_compute; reflexivity|].
  destruct (Hfiles ("a.mid"%string, midi60)) as (hands & _ & H1 & H2).
  { apply list_elem_of_here. }
  exact (eq_trans H1 (eq_sym H2)).
Defined.

Example dataset10 :
  (λ d, (n_windows_past d, length (data d))) <$> Dataset_init [four_windows] 3
  = Ok (3, 10%nat).
Proof. reflexivity. Qed.

(** * Properties of the sampler *)

(** ** Datasets as [Dataset.__init__] builds them *)

Lemma has_shape_zeros (n : nat) : has_shape (replicate n zero_window) = true.
Proof. induction n as [|n IH]; [done|]. simpl. by rewrite IH. Qed.

Lemma has_shape_app (t1 t2 : tensor) :
  has_shape (t1 ++ t2) = has_shape t1 && has_shape t2.
Proof. apply forallb_app. Qed.

Lemma has_shape_concat (ts : list tensor) :
  forallb has_shape ts = true → has_shape (concat ts) = true.
Proof.
  induction ts as [|t ts IH]; [done|]. simpl.
  intros [Ht Hts]%andb_prop. rewrite has_shape_app, Ht. by apply IH.
Qed.

Lemma Dataset_init_wf (npys : list tensor) (past : Z) (d : Dataset) :
  Dataset_init npys past = Ok d →
  wf_dataset d ∧ n_windows_past d = past
  ∧ data d = replicate (Z.to_nat past) zero_window ++ concat npys
             ++ replicate (Z.to_nat past) zero_window.
Proof.
  unfold Dataset_init, get_files_from_path, np_zeros.
  destruct npys as [|t ts]; [done|]. cbn [mbind result_bind].
  destruct (past <? 0) eqn:Hpast; [done|]. cbn [mbind result_bind].
  apply Z.ltb_ge in Hpast.
  destruct (forallb has_shape (t :: ts)) eqn:Hshape; [|done].
  intros [= <-]. split; [|done].
  unfold wf_dataset. cbn [n_windows_past data].
  split; [done|]. split.
  - rewrite !length_app, !length_replicate. lia.
  - rewrite has_shape_app, has_shape_zeros.
    rewrite (has_shape_app (concat (t :: ts))), has_shape_zeros.
    by rewrite (has_shape_concat (t :: ts) Hshape).
Qed.

Lemma has_shape_cell (t : tensor) (w h p : nat) :
  has_shape t = true → (w < length t)%nat → (h < 2)%nat → (p < 88)%nat →
  ∃ win r b, t !! w = Some win ∧ win !! h = Some r ∧ r !! p = Some b
             ∧ length r = 88%nat ∧ cell t w h p = Some b.
Proof.
  intros Hshape Hw Hh Hp.
  destruct (lookup_lt_is_Some_2 t w Hw) as [win Hwin].
  unfold has_shape in Hshape. rewrite forallb_forall in Hshape.
  specialize (Hshape win). rewrite <- list_elem_of_In in Hshape.
  destruct (andb_prop _ _ (Hshape (list_elem_of_lookup_2 _ _ _ Hwin)))
    as [Hlen2%Nat.eqb_eq Hrows].
  destruct (lookup_lt_is_Some_2 win h) as [r Hr]; [lia|].
  rewrite forallb_forall in Hrows. specialize (Hrows r).
  rewrite <- list_elem_of_In in Hrows.
  assert (Hlen88 : length r = 88%nat).
  { apply Nat.eqb_eq, Hrows. by eapply list_elem_of_lookup_2. }
  destruct (lookup_lt_is_Some_2 r p) as [b Hb]; [lia|].
  exists win, r, b. unfold cell. rewrite Hwin. simpl. rewrite Hr. simpl. done.
Qed.

(** A slice whose bounds lie inside the list is not clipped. *)
Lemma py_slice_inside {A} (lo hi : Z) (l : list A) :
  0 ≤ lo → lo ≤ hi → hi ≤ Z.of_nat (length l) →
  py_slice lo hi l = take (Z.to_nat (hi - lo)) (drop (Z.to_nat lo) l)
  ∧ length (py_slice lo hi l) = Z.to_nat (hi - lo).
Proof.
  intros Hlo Hhi Hlen. unfold py_slice, py_slice_bound.
  rewrite !(proj2 (Z.ltb_ge _ 0)) by lia.
  rewrite !Z.min_l by lia.
  replace (Z.to_nat hi - Z.to_nat lo)%nat with (Z.to_nat (hi - lo)) by lia.
  split; [done|]. rewrite length_take, length_drop. lia.
Qed.

Lemma draw_range (d : Dataset) (g : rng) (s : nat) :
  0 < Z.of_nat (length (data d)) - n_windows_past d →
  0 ≤ draw d g s < Z.of_nat (length (data d)) - n_windows_past d.
Proof. intros H. unfold draw. by apply Z.mod_pos_bound. Qed.

Lemma window_slice_inside (d : Dataset) (start : Z) :
  0 ≤ n_windows_past d →
  0 ≤ start < Z.of_nat (length (data d)) - n_windows_past d →
  window_slice d start
  = take (Z.to_nat (n_windows_past d + 1)) (drop (Z.to_nat start) (data d))
  ∧ length (window_slice d start) = Z.to_nat (n_windows_past d + 1).
Proof.
  intros Hp Hs. unfold window_slice.
  destruct (py_slice_inside start (start + n_windows_past d + 1) (data d))
    as [Heq Hlen]; [lia..|].
  replace (start + n_windows_past d + 1 - start) with (n_windows_past d + 1)
    in * by lia.
  done.
Qed.

(** ** The sampling loop *)

Lemma advance_advance (j k : nat) (g : rng) :
  advance k (advance j g) = advance (j + k) g.
Proof. unfold advance. simpl. f_equal. lia. Qed.

Lemma draw_advance (d : Dataset) (g : rng) (j s : nat) :
  draw d (advance j g) s = draw d g (j + s).
Proof. unfold draw, advance. simpl. do 2 f_equal. lia. Qed.

Lemma sample_loop_Ok (d : Dataset) (todo : nat) :
  0 ≤ n_windows_past d →
  0 < Z.of_nat (length (data d)) - n_windows_past d →
  ∀ (sample : nat) (hands : list tensor) (g : rng),
    (∀ i, (sample ≤ i < sample + todo)%nat →
          ∃ old, hands !! i = Some old
                 ∧ length old = Z.to_nat (n_windows_past d + 1)) →
    ∃ hands',
      sample_loop todo sample hands {| self := d; random := g |}
      = (Ok hands', {| self := d; random := advance todo g |})
      ∧ length hands' = length hands
      ∧ (∀ i, (i < sample)%nat → hands' !! i = hands !! i)
      ∧ (∀ j, (j < todo)%nat →
              hands' !! (sample + j)%nat = Some (window_slice d (draw d g j))).
Proof.
  intros Hpast Hrange.
  induction todo as [|todo IH]; intros sample hands g Hold.
  - exists hands. simpl. split.
    + do 2 f_equal. destruct g as [tp c]. unfold advance. simpl. f_equal. lia.
    + split; [done|]. split; [done|]. intros j Hj. lia.
  - cbn [sample_loop self random]. unfold randrange.
    rewrite (proj2 (Z.leb_gt _ _)) by lia.
    assert (Hd0 : tape g (cursor g)
                  `mod` (Z.of_nat (length (data d)) - n_windows_past d) = draw d g 0).
    { unfold draw. by rewrite Nat.add_0_r. }
    rewrite Hd0. fold (window_slice d (draw d g 0)).
    destruct (Hold sample) as (old & Hsome & Hlen); [lia|].
    destruct (window_slice_inside d (draw d g 0) Hpast (draw_range d g 0 Hrange))
      as [_ Hslice].
    unfold assign_sample. rewrite Hsome.
    rewrite (proj2 (Nat.eqb_eq _ _)) by congruence.
    set (hands1 := <[sample := window_slice d (draw d g 0)]> hands).
    destruct (IH (S sample) hands1 (advance 1 g)) as (hands' & Hrun & Hlen' & Hlow & Hnew).
    { intros i Hi. destruct (Hold i) as (old' & Hsome' & Hlen''); [lia|].
      exists old'. split; [|done]. unfold hands1.
      by rewrite list_lookup_insert_ne by lia. }
    exists hands'. rewrite Hrun, advance_advance. split; [done|].
    split; [by rewrite Hlen'; unfold hands1; rewrite length_insert|].
    split.
    + intros i Hi. rewrite Hlow by lia. unfold hands1.
      by rewrite list_lookup_insert_ne by lia.
    + intros [|j] Hj.
      * rewrite Nat.add_0_r, Hlow by lia. unfold hands1.
        apply list_lookup_insert_eq. by eapply lookup_lt_Some.
      * replace (sample + S j)%nat with (S sample + j)%nat by lia.
        rewrite Hnew by lia. by rewrite draw_advance.
Qed.

Lemma next_batch_run (d : Dataset) (n_samples : Z) (g : rng) :
  0 ≤ n_windows_past d →
  0 < Z.of_nat (length (data d)) - n_windows_past d →
  0 ≤ n_samples →
  next_batch n_samples {| self := d; random := g |}
  = (make_batch (Z.to_nat n_samples) (Z.to_nat (n_windows_past d + 1))
       (sampled d g (Z.to_nat n_samples)),
     {| self := d; random := advance (Z.to_nat n_samples) g |}).
Proof.
  intros Hpast Hrange Hn. unfold next_batch, np_zeros4. cbn [self].
  rewrite (proj2 (Z.ltb_ge n_samples 0)) by lia.
  rewrite (proj2 (Z.ltb_ge (n_windows_past d + 1) 0)) by lia.
  cbn [orb].
  set (n := Z.to_nat n_samples).
  set (zeros := replicate n (replicate (Z.to_nat (n_windows_past d + 1)) zero_window)).
  destruct (sample_loop_Ok d n Hpast Hrange 0 zeros g)
    as (hands' & Hrun & Hlen & _ & Hnew).
  { intros i Hi. eexists. split.
    - apply lookup_replicate_2. lia.
    - apply length_replicate. }
  rewrite Hrun. do 2 f_equal.
  apply list_eq. intros s. unfold sampled. rewrite list_lookup_fmap.
  destruct (decide (s < n)%nat) as [Hs|Hs].
  - specialize (Hnew s Hs). simpl in Hnew. rewrite Hnew. by rewrite lookup_seq_lt.
  - rewrite lookup_seq_ge by lia. apply lookup_ge_None.
    rewrite Hlen. unfold zeros. rewrite length_replicate. lia.
Qed.

(** ** The batch built from [hands] *)

Lemma last_window_Ok (len : nat) (plane : list (list row)) :
  (0 < len)%nat →
  last_window len plane = Ok ((λ sl : list row, sl !!! (len - 1)%nat) <$> plane).
Proof.
  intros Hlen. unfold last_window, py_index.
  cbn [Z.leb Z.compare andb].
  rewrite (proj2 (Z.leb_le (- Z.of_nat len) (-1))) by lia.
  cbn [mbind result_bind andb Z.ltb Z.compare].
  do 3 f_equal. lia.
Qed.

Lemma cell2_mask_assign (mask : list row) (v : label) (y : list (list label))
    (s p : nat) :
  cell2 (mask_assign mask v y) s p
  = (m ← cell2 mask s p; old ← cell2 y s p; Some (if m : bool then v else old)).
Proof.
  unfold cell2, mask_assign. rewrite lookup_zip_with.
  destruct (mask !! s) as [rm|]; simpl; [|done].
  destruct (y !! s) as [ry|]; simpl.
  - rewrite lookup_zip_with. destruct (rm !! p); simpl; [|done].
    by destruct (ry !! p).
  - by destruct (rm !! p).
Qed.

Lemma cell2_full (n : nat) (s p : nat) :
  (s < n)%nat → (p < 88)%nat → cell2 (replicate n (replicate 88 NaN)) s p = Some NaN.
Proof.
  intros Hs Hp. unfold cell2. rewrite lookup_replicate_2 by done.
  cbn [mbind option_bind]. by rewrite lookup_replicate_2.
Qed.

Lemma make_batch_Ok (n len : nat) (hands : list tensor) :
  (0 < len)%nat →
  let last h := (λ sl : list row, sl !!! (len - 1)%nat) <$> hand_plane h hands in
  make_batch n len hands
  = Ok (logical_or (hand_plane 0 hands) (hand_plane 1 hands),
        mask_assign ((λ sl : list row, sl !!! (len - 1)%nat)
                       <$> logical_and (hand_plane 0 hands) (hand_plane 1 hands))
          (Num 0)
          (mask_assign (last 1%nat) (Num 1)
             (mask_assign (last 0%nat) (Num (-1)) (replicate n (replicate 88 NaN))))).
Proof.
  intros Hlen last. unfold make_batch. rewrite !last_window_Ok by done. done.
Qed.

(** One sample: the planes of a slice [sl] whose window [j] is [win]. *)
Lemma hand_plane_lookup (h : nat) (hands : list tensor) (s j : nat)
    (sl : tensor) (win : window) (r : row) :
  hands !! s = Some sl → sl !! j = Some win → win !! h = Some r →
  ∃ pl, hand_plane h hands !! s = Some pl ∧ length pl = length sl
        ∧ pl !! j = Some r.
Proof.
  intros Hsl Hwin Hr. unfold hand_plane. rewrite list_lookup_fmap, Hsl. simpl.
  eexists. split; [done|]. split; [by rewrite length_fmap|].
  rewrite list_lookup_fmap, Hwin. simpl. f_equal.
  by apply list_lookup_total_correct.
Qed.

Lemma logical_cell (f : bool → bool → bool) (a b : list (list row))
    (s j p : nat) (pa pb : list row) (ra rb : row) (x y : bool) :
  a !! s = Some pa → b !! s = Some pb →
  pa !! j = Some ra → pb !! j = Some rb →
  ra !! p = Some x → rb !! p = Some y →
  ∃ pl r, zip_with (zip_with (zip_with f)) a b !! s = Some pl
          ∧ length pl = min (length pa) (length pb)
          ∧ pl !! j = Some r ∧ r !! p = Some (f x y).
Proof.
  intros Ha Hb Hpa Hpb Hra Hrb.
  exists (zip_with (zip_with f) pa pb), (zip_with f ra rb).
  rewrite !lookup_zip_with, Ha, Hb, Hpa, Hpb, Hra, Hrb. simpl.
  by rewrite length_zip_with.
Qed.

(** The cells of a batch at sample [s], in terms of its slice [sl]. *)
Lemma make_batch_sample (n len : nat) (hands : list tensor) (s : nat) (sl : tensor) :
  (0 < len)%nat → (s < n)%nat →
  hands !! s = Some sl → length sl = len → has_shape sl = true →
  ∃ batch_x batch_y,
    make_batch n len hands = Ok (batch_x, batch_y)
    ∧ (∃ xs, batch_x !! s = Some xs ∧ length xs = len)
    ∧ ∀ j p, (j < len)%nat → (p < 88)%nat →
        ∃ b0 b1, cell sl j 0 p = Some b0 ∧ cell sl j 1 p = Some b1
                 ∧ cell batch_x s j p = Some (b0 || b1)
                 ∧ (j = (len - 1)%nat → cell2 batch_y s p = Some (label_of b0 b1)).
Proof.
  intros Hlen Hs Hsl Hlsl Hshape.
  eexists _, _. split; [by apply make_batch_Ok|].
  assert (Hcells : ∀ j p, (j < len)%nat → (p < 88)%nat →
            ∃ win r0 r1 b0 b1, sl !! j = Some win
              ∧ win !! 0%nat = Some r0 ∧ win !! 1%nat = Some r1
              ∧ r0 !! p = Some b0 ∧ r1 !! p = Some b1
              ∧ cell sl j 0 p = Some b0 ∧ cell sl j 1 p = Some b1).
  { intros j p Hj Hp.
    destruct (has_shape_cell sl j 0 p) as (win & r0 & b0 & Hwin & Hr0 & Hb0 & _ & Hc0);
      [done|lia|lia|done|].
    destruct (has_shape_cell sl j 1 p) as (win' & r1 & b1 & Hwin' & Hr1 & Hb1 & _ & Hc1);
      [done|lia|lia|done|].
    assert (win' = win) as -> by congruence.
    by exists win, r0, r1, b0, b1. }
  split.
  - destruct (Hcells (len - 1)%nat 0%nat) as (win & r0 & r1 & b0 & b1 & Hwin & Hr0 & Hr1 & _);
      [lia..|].
    destruct (hand_plane_lookup 0 hands s _ sl win r0 Hsl Hwin Hr0) as (p0 & Hp0 & Hl0 & _).
    destruct (hand_plane_lookup 1 hands s _ sl win r1 Hsl Hwin Hr1) as (p1 & Hp1 & Hl1 & _).
    unfold logical_or. rewrite lookup_zip_with, Hp0, Hp1. simpl.
    eexists. split; [done|]. rewrite length_zip_with. lia.
  - intros j p Hj Hp.
    destruct (Hcells j p Hj Hp)
      as (win & r0 & r1 & b0 & b1 & Hwin & Hr0 & Hr1 & Hb0 & Hb1 & Hc0 & Hc1).
    exists b0, b1. split; [done|]. split; [done|].
    destruct (hand_plane_lookup 0 hands s j sl win r0 Hsl Hwin Hr0) as (p0 & Hp0 & Hl0 & Hj0).
    destruct (hand_plane_lookup 1 hands s j sl win r1 Hsl Hwin Hr1) as (p1 & Hp1 & Hl1 & Hj1).
    split.
    + destruct (logical_cell orb _ _ s j p _ _ _ _ _ _ Hp0 Hp1 Hj0 Hj1 Hb0 Hb1)
        as (pl & r & Hpl & _ & Hr & Hb).
      unfold cell, logical_or. rewrite Hpl. simpl. rewrite Hr. simpl. done.
    + intros ->.
      rewrite !cell2_mask_assign, cell2_full by done.
      assert (H0 : cell2 ((λ sl0 : list row, sl0 !!! (len - 1)%nat)
                            <$> hand_plane 0 hands) s p = Some b0).
      { unfold cell2. rewrite list_lookup_fmap, Hp0. simpl.
        by rewrite (list_lookup_total_correct _ _ _ Hj0). }
      assert (H1 : cell2 ((λ sl0 : list row, sl0 !!! (len - 1)%nat)
                            <$> hand_plane 1 hands) s p = Some b1).
      { unfold cell2. rewrite list_lookup_fmap, Hp1. simpl.
        by rewrite (list_lookup_total_correct _ _ _ Hj1). }
      assert (Hboth : cell2 ((λ sl0 : list row, sl0 !!! (len - 1)%nat)
                               <$> logical_and (hand_plane 0 hands) (hand_plane 1 hands))
                        s p = Some (b0 && b1)).
      { destruct (logical_cell andb _ _ s _ p _ _ _ _ _ _ Hp0 Hp1 Hj0 Hj1 Hb0 Hb1)
          as (pl & r & Hpl & _ & Hr & Hb).
        unfold cell2, logical_and. rewrite list_lookup_fmap, Hpl. simpl.
        by rewrite (list_lookup_total_correct _ _ _ Hr). }
      rewrite H0, H1, Hboth. simpl. unfold label_of.
      by destruct b0, b1.
Qed.

(** ** A call of [next_batch] on a dataset *)

Lemma has_shape_subseteq (t t' : tensor) :
  t' ⊆ t → has_shape t = true → has_shape t' = true.
Proof.
  unfold has_shape. rewrite !forallb_forall. intros Hsub Hall win Hin.
  apply Hall, list_elem_of_In, Hsub. by apply list_elem_of_In.
Qed.

Lemma window_slice_cells (d : Dataset) (start : Z) :
  wf_dataset d →
  0 ≤ start < Z.of_nat (length (data d)) - n_windows_past d →
  length (window_slice d start) = Z.to_nat (n_windows_past d + 1)
  ∧ has_shape (window_slice d start) = true
  ∧ ∀ j h p, (j < Z.to_nat (n_windows_past d + 1))%nat →
      cell (window_slice d start) j h p = cell (data d) (Z.to_nat start + j) h p.
Proof.
  intros (Hpast & _ & Hshape) Hstart.
  destruct (window_slice_inside d start Hpast Hstart) as [Heq Hlen].
  split; [done|]. split.
  - rewrite Heq. eapply has_shape_subseteq; [|done].
    etrans; [apply subseteq_take|apply subseteq_drop].
  - intros j h p Hj. unfold cell. rewrite Heq.
    by rewrite lookup_take_lt, lookup_drop by done.
Qed.

Lemma length_mask_assign (mask : list row) (v : label) (y : list (list label)) :
  length (mask_assign mask v y) = min (length mask) (length y).
Proof. unfold mask_assign. apply length_zip_with. Qed.

Lemma next_batch_spec (d : Dataset) (n_samples : Z) (g : rng) :
  wf_dataset d →
  0 < Z.of_nat (length (data d)) - n_windows_past d →
  0 ≤ n_samples →
  ∃ batch_x batch_y,
    next_batch n_samples {| self := d; random := g |}
    = (Ok (batch_x, batch_y),
       {| self := d; random := advance (Z.to_nat n_samples) g |})
    ∧ length batch_x = Z.to_nat n_samples
    ∧ length batch_y = Z.to_nat n_samples
    ∧ ∀ s, (s < Z.to_nat n_samples)%nat →
        (∃ xs, batch_x !! s = Some xs
               ∧ length xs = Z.to_nat (n_windows_past d + 1))
        ∧ ∀ j p, (j < Z.to_nat (n_windows_past d + 1))%nat → (p < 88)%nat →
            ∃ b0 b1,
              cell (data d) (Z.to_nat (draw d g s) + j) 0 p = Some b0
              ∧ cell (data d) (Z.to_nat (draw d g s) + j) 1 p = Some b1
              ∧ cell batch_x s j p = Some (b0 || b1)
              ∧ (j = Z.to_nat (n_windows_past d) →
                 cell2 batch_y s p = Some (label_of b0 b1)).
Proof.
  intros Hwf Hrange Hn. pose proof Hwf as (Hpast & _ & _).
  rewrite next_batch_run by done.
  set (n := Z.to_nat n_samples). set (len := Z.to_nat (n_windows_past d + 1)).
  assert (Hlen : (0 < len)%nat) by (unfold len; lia).
  pose proof (make_batch_Ok n len (sampled d g n) Hlen) as Hmk. cbn zeta in Hmk.
  eexists _, _. split; [by rewrite Hmk|].
  assert (Hhands : length (sampled d g n) = n).
  { unfold sampled. by rewrite length_fmap, length_seq. }
  assert (Hplane : ∀ h, length (hand_plane h (sampled d g n)) = n).
  { intros h. unfold hand_plane. by rewrite length_fmap. }
  split; [|split].
  - unfold logical_or. rewrite length_zip_with, !Hplane. lia.
  - rewrite !length_mask_assign, !length_fmap, length_replicate, !Hplane.
    unfold logical_and. rewrite length_zip_with, !Hplane. lia.
  - intros s Hs.
    assert (Hsl : sampled d g n !! s = Some (window_slice d (draw d g s))).
    { unfold sampled. by rewrite list_lookup_fmap, lookup_seq_lt. }
    destruct (window_slice_cells d (draw d g s) Hwf (draw_range d g s Hrange))
      as (Hlsl & Hshape & Hcells).
    destruct (make_batch_sample n len _ s _ Hlen Hs Hsl Hlsl Hshape)
      as (bx & by_ & Hmk' & Hxs & Hcell).
    rewrite Hmk in Hmk'. injection Hmk' as <- <-.
    split; [done|]. intros j p Hj Hp.
    destruct (Hcell j p Hj Hp) as (b0 & b1 & Hc0 & Hc1 & Hx & Hy).
    exists b0, b1. rewrite <- !Hcells by done.
    repeat split; [done..|]. intros ->. apply Hy. unfold len. lia.
Qed.

(** With nothing to draw from, the first draw raises. *)
Lemma next_batch_empty_range (d : Dataset) (n_samples : Z) (g : rng) :
  0 ≤ n_windows_past d → 0 < n_samples →
  Z.of_nat (length (data d)) - n_windows_past d ≤ 0 →
  next_batch n_samples {| self := d; random := g |}
  = (Err "ValueError", {| self := d; random := g |}).
Proof.
  intros Hpast Hn Hrange. unfold next_batch, np_zeros4. cbn [self].
  rewrite (proj2 (Z.ltb_ge n_samples 0)) by lia.
  rewrite (proj2 (Z.ltb_ge (n_windows_past d + 1) 0)) by lia.
  cbn [orb]. destruct (Z.to_nat n_samples) as [|k] eqn:Hk; [lia|].
  cbn [sample_loop self random]. unfold randrange.
  by rewrite (proj2 (Z.leb_le _ _)) by lia.
Qed.

(** The loop and the call leave [self] alone and only move the cursor. *)
Lemma sample_loop_frame (todo sample : nat) (hands : list tensor) (st : world) :
  let st' := (sample_loop todo sample hands st).2 in
  self st' = self st ∧ tape (random st') = tape (random st)
  ∧ (cursor (random st) ≤ cursor (random st') ≤ cursor (random st) + todo)%nat.
Proof.
  revert sample hands st. induction todo as [|todo IH]; intros sample hands st.
  - simpl. split; [done|]. split; [done|]. lia.
  - cbn [sample_loop]. unfold randrange.
    destruct (_ <=? 0); [simpl; split; [done|]; split; [done|]; lia|].
    destruct (assign_sample _ _ _) as [hands'|e];
      [|simpl; split; [done|]; split; [done|]; lia].
    destruct (IH (S sample) hands'
                {| self := self st; random := advance 1 (random st) |})
      as (H1 & H2 & H3).
    simpl in *. split; [done|]. split; [done|]. lia.
Qed.

(** ** The claims about the sampler *)

(** C9. A call of [next_batch], whatever the dataset, the number of samples
    and the outcome, leaves the dataset as it was: [self.data] and
    [self.n_windows_past] are the same object state before and after.  Of the
    shared state only the random source moves, by at most one draw per
    sample. *)
Theorem next_batch_frame (n_samples : Z) (st : world) :
  let st' := (next_batch n_samples st).2 in
  self st' = self st
  ∧ data (self st') = data (self st)
  ∧ n_windows_past (self st') = n_windows_past (self st)
  ∧ tape (random st') = tape (random st)
  ∧ (cursor (random st) ≤ cursor (random st')
     ≤ cursor (random st) + Z.to_nat n_samples)%nat.
Proof.
  cbn zeta. unfold next_batch.
  destruct (np_zeros4 _ _) as [hands|e].
  - pose proof (sample_loop_frame (Z.to_nat n_samples) 0 hands st) as Hframe.
    cbn zeta in Hframe.
    destruct (sample_loop _ _ _ _) as [[hands'|e] st']; simpl in *;
      destruct Hframe as (H1 & H2 & H3); rewrite H1;
      (split; [done|]; split; [done|]; split; [done|]; split; [done|lia]).
  - simpl. split; [done|]. split; [done|]. split; [done|]. split; [done|lia].
Qed.

(** C1. In every batch that [next_batch] returns, the label at [s, p] is
    read off the last window of the slice of sample [s], the window
    [start_s + n_windows_past] of the data: -1 if only hand 0 is active at
    [p], +1 if only hand 1 is, 0 if both are, and nan if neither is. *)
Theorem batch_label (npys : list tensor) (past : Z) (d : Dataset)
    (n_samples : Z) (g : rng) (batch_x : list (list row))
    (batch_y : list (list label)) (st' : world) :
  Dataset_init npys past = Ok d →
  next_batch n_samples {| self := d; random := g |} = (Ok (batch_x, batch_y), st') →
  ∀ s p, (s < Z.to_nat n_samples)%nat → (p < 88)%nat →
    let last := (Z.to_nat (draw d g s) + Z.to_nat (n_windows_past d))%nat in
    let hand0 := cell (data d) last 0 p in
    let hand1 := cell (data d) last 1 p in
    is_Some hand0 ∧ is_Some hand1
    ∧ (hand0 = Some true → hand1 = Some false → cell2 batch_y s p = Some (Num (-1)))
    ∧ (hand0 = Some false → hand1 = Some true → cell2 batch_y s p = Some (Num 1))
    ∧ (hand0 = Some true → hand1 = Some true → cell2 batch_y s p = Some (Num 0))
    ∧ (hand0 = Some false → hand1 = Some false → cell2 batch_y s p = Some NaN).
Proof.
  intros (Hwf & _)%Dataset_init_wf Hrun s p Hs Hp.
  pose proof Hwf as (Hpast & _ & _).
  destruct (decide (0 < Z.of_nat (length (data d)) - n_windows_past d)) as [Hrange|Hno].
  - destruct (next_batch_spec d n_samples g Hwf Hrange) as (bx & by_ & Hrun' & _ & _ & Hsample);
      [lia|].
    rewrite Hrun in Hrun'. injection Hrun' as <- <- _.
    destruct (Hsample s Hs) as [_ Hcell].
    destruct (Hcell (Z.to_nat (n_windows_past d)) p) as (b0 & b1 & H0 & H1 & _ & Hy);
      [lia|done|].
    specialize (Hy eq_refl). cbn zeta. rewrite H0, H1.
    split; [by eexists|]. split; [by eexists|].
    repeat split; intros [= ->] [= ->]; exact Hy.
  - rewrite next_batch_empty_range in Hrun by lia. done.
Qed.

Lemma batch_label_witness :
  ∃ batch_x batch_y st',
    Dataset_init [four_windows] 3 = Ok ds10
    ∧ next_batch 2 {| self := ds10; random := counting |} = (Ok (batch_x, batch_y), st')
    ∧ cell2 batch_y 0 39 = Some (Num (-1)).
Proof.
  set (r := next_batch 2 {| self := ds10; random := counting |}).
  assert (Hrun : r = (Ok (match r.1 with Ok b => b | Err _ => ([], []) end), r.2)).
  { vm_compute. reflexivity. }
  eexists _, _, _. split; [reflexivity|]. split; [exact Hrun|].
  destruct (batch_label [four_windows] 3 ds10 2 counting _ _ _ eq_refl Hrun 0%nat 39%nat)
    as (_ & _ & Hleft & _); [lia..|].
  apply Hleft; reflexivity.
Defined.

(** C10. In every batch that [next_batch] returns, the label at [s, p] is
    nan exactly when the merged input is false at the last window of the
    slice, [batch_x[s, -1, p]]; the labels -1, 0 and +1 are the only other
    values and occur exactly where that input is true. *)
Theorem label_nan_iff (npys : list tensor) (past : Z) (d : Dataset)
    (n_samples : Z) (g : rng) (batch_x : list (list row))
    (batch_y : list (list label)) (st' : world) :
  Dataset_init npys past = Ok d →
  next_batch n_samples {| self := d; random := g |} = (Ok (batch_x, batch_y), st') →
  ∀ s p, (s < Z.to_nat n_samples)%nat → (p < 88)%nat →
    ∃ last x y,
      py_index (Z.to_nat (n_windows_past d + 1)) (-1) = Ok last
      ∧ cell batch_x s last p = Some x
      ∧ cell2 batch_y s p = Some y
      ∧ (y = NaN ↔ x = false)
      ∧ (x = true ↔ y = Num (-1) ∨ y = Num 0 ∨ y = Num 1).
Proof.
  intros (Hwf & _)%Dataset_init_wf Hrun s p Hs Hp.
  pose proof Hwf as (Hpast & _ & _).
  destruct (decide (0 < Z.of_nat (length (data d)) - n_windows_past d)) as [Hrange|Hno].
  - destruct (next_batch_spec d n_samples g Hwf Hrange) as (bx & by_ & Hrun' & _ & _ & Hsample);
      [lia|].
    rewrite Hrun in Hrun'. injection Hrun' as <- <- _.
    destruct (Hsample s Hs) as [_ Hcell].
    destruct (Hcell (Z.to_nat (n_windows_past d)) p) as (b0 & b1 & _ & _ & Hx & Hy);
      [lia|done|].
    specialize (Hy eq_refl).
    exists (Z.to_nat (n_windows_past d)), (b0 || b1), (label_of b0 b1).
    split.
    { unfold py_index. cbn [Z.leb Z.compare andb].
      rewrite (proj2 (Z.leb_le _ (-1))) by lia. cbn [andb Z.ltb Z.compare].
      f_equal. lia. }
    split; [done|]. split; [done|].
    destruct b0, b1; unfold label_of; simpl; split; split;
      first [done | intros [|[|]]; done | tauto].
  - rewrite next_batch_empty_range in Hrun by lia. done.
Qed.

Lemma label_nan_iff_witness :
  ∃ batch_x batch_y st',
    Dataset_init [four_windows] 3 = Ok ds10
    ∧ next_batch 2 {| self := ds10; random := counting |} = (Ok (batch_x, batch_y), st')
    ∧ ∃ last x y, cell batch_x 0 last 40 = Some x ∧ cell2 batch_y 0 40 = Some y
                  ∧ (y = NaN ↔ x = false).
Proof.
  set (r := next_batch 2 {| self := ds10; random := counting |}).
  assert (Hrun : r = (Ok (match r.1 with Ok b => b | Err _ => ([], []) end), r.2)).
  { vm_compute. reflexivity. }
  eexists _, _, _. split; [reflexivity|]. split; [exact Hrun|].
  destruct (label_nan_iff [four_windows] 3 ds10 2 counting _ _ _ eq_refl Hrun 0%nat 40%nat)
    as (last & x & y & _ & Hx & Hy & Hiff & _); [lia..|].
  by exists last, x, y.
Defined.



(** C5, as stated, fails: on an empty start range the exception is the
    ValueError of [random.randrange], not a ShapeError. *)
Lemma next_batch_empty_not_ShapeError :
  ¬ (∀ npys past d n_samples g,
       Dataset_init npys past = Ok d → 0 < n_samples →
       Z.of_nat (length (data d)) ≤ n_windows_past d →
       (next_batch n_samples {| self := d; random := g |}).1 = Err "ShapeError").
Proof.
  intros Hclaim.
  assert (Herr : (next_batch 1 {| self := ds_empty; random := counting |}).1
                 = Err "ShapeError").
  { apply (Hclaim [[]] 0); [reflexivity|lia|simpl; lia]. }
  revert Herr. vm_compute. discriminate.
Qed.

(** C5, amended. On a dataset that [Dataset.__init__] built, [next_batch]
    with [n_samples > 0] returns a batch whenever the start range is not
    empty; when it is empty ([n_windows_past] is at least the length of the
    padded array, which is the dataset of no window and no padding), the
    first draw raises the ValueError of [random.randrange]. *)
Theorem next_batch_failure (npys : list tensor) (past : Z) (d : Dataset)
    (n_samples : Z) (g : rng) :
  Dataset_init npys past = Ok d → 0 < n_samples →
  let L := Z.of_nat (length (data d)) in
  let P := n_windows_past d in
  (0 < L - P →
   ∃ batch st', next_batch n_samples {| self := d; random := g |} = (Ok batch, st'))
  ∧ (L ≤ P →
     next_batch n_samples {| self := d; random := g |}
     = (Err "ValueError", {| self := d; random := g |}))
  ∧ (L ≤ P ↔ P = 0 ∧ data d = []).
Proof.
  intros (Hwf & _)%Dataset_init_wf Hn L P.
  pose proof Hwf as (Hpast & Hpad & _). fold L P in Hpast, Hpad.
  split; [|split].
  - intros Hrange.
    destruct (next_batch_spec d n_samples g Hwf Hrange) as (bx & by_ & Hrun & _); [lia|].
    by eexists _, _.
  - intros Hempty. apply next_batch_empty_range; [done..|]. fold L P. lia.
  - split.
    + intros Hempty. split; [lia|]. apply length_zero_iff_nil. lia.
    + intros [HP Hnil]. unfold L. rewrite Hnil. simpl. lia.
Qed.

Lemma next_batch_failure_witness :
  Dataset_init [[]] 0 = Ok ds_empty
  ∧ next_batch 1 {| self := ds_empty; random := counting |}
    = (Err "ValueError", {| self := ds_empty; random := counting |})
  ∧ ∃ batch st', next_batch 1 {| self := ds10; random := counting |} = (Ok batch, st').
Proof.
  split; [reflexivity|]. split.
  - destruct (next_batch_failure [[]] 0 ds_empty 1 counting eq_refl) as (_ & Herr & _);
      [lia|].
    apply Herr. simpl. lia.
  - destruct (next_batch_failure [four_windows] 3 ds10 1 counting eq_refl) as (Hok & _);
      [lia|].
    apply Hok. simpl. lia.
Defined.

(** * Further properties of the encoder *)

(** ** The shape of the encoded array *)

Lemma forallb_imap {A} (P : A → bool) (f : nat → A → A) (l : list A) :
  (∀ i x, P (f i x) = P x) → forallb P (imap f l) = forallb P l.
Proof.
  revert f. induction l as [|x l IH]; intros f Hf; simpl; [done|].
  rewrite Hf, IH; [done|]. intros i y. apply Hf.
Qed.

Lemma forallb_alter {A} (P : A → bool) (f : A → A) (i : nat) (l : list A) :
  (∀ x, P (f x) = P x) → forallb P (alter f i l) = forallb P l.
Proof.
  intros Hf. revert i. induction l as [|x l IH]; intros [|i]; simpl; [done..| |].
  - by rewrite Hf.
  - f_equal. apply IH.
Qed.

Lemma has_shape_assign_slice (lo hi hand k : nat) (t : tensor) :
  has_shape (assign_slice lo hi hand k t) = has_shape t.
Proof.
  unfold has_shape, assign_slice. apply forallb_imap. intros w win.
  destruct (bool_decide _); [|done].
  unfold set_true. rewrite length_alter. f_equal.
  apply forallb_alter. intros r. by rewrite length_insert.
Qed.

Lemma write_notes_shape (sps : Q) (hand : nat) (ns : list Note) (t t' : tensor) :
  write_notes sps hand t ns = Ok t' →
  has_shape t' = has_shape t ∧ length t' = length t.
Proof.
  revert t. induction ns as [|note ns IH]; intros t Hrun; simpl in Hrun.
  - by injection Hrun as <-.
  - unfold write_note in Hrun.
    destruct (py_index 88 (pitch note - 21)) as [k|]; [|done].
    cbn [mbind result_bind] in Hrun.
    destruct (IH _ Hrun) as [-> ->].
    by rewrite has_shape_assign_slice, length_assign_slice.
Qed.

Lemma has_shape_lookup (t : tensor) (w : nat) (win : window) :
  has_shape t = true → t !! w = Some win →
  length win = 2%nat ∧ ∀ h r, win !! h = Some r → length r = 88%nat.
Proof.
  intros Hshape Hwin. unfold has_shape in Hshape. rewrite forallb_forall in Hshape.
  destruct (andb_prop _ _ (Hshape win (proj1 (list_elem_of_In _ _)
                                         (list_elem_of_lookup_2 _ _ _ Hwin))))
    as [Hlen%Nat.eqb_eq Hrows].
  split; [done|]. intros h r Hr. rewrite forallb_forall in Hrows.
  apply Nat.eqb_eq, Hrows, list_elem_of_In. by eapply list_elem_of_lookup_2.
Qed.

(** Two arrays of shape (n, 2, 88) with the same cells are the same array. *)
Lemma tensor_ext (t t' : tensor) :
  has_shape t = true → has_shape t' = true → length t = length t' →
  (∀ w h k, cell t w h k = cell t' w h k) → t = t'.
Proof.
  intros Hs Hs' Hlen Hcell. apply list_eq. intros w.
  destruct (decide (w < length t)%nat) as [Hw|Hw].
  - destruct (lookup_lt_is_Some_2 t w Hw) as [win Hwin].
    destruct (lookup_lt_is_Some_2 t' w) as [win' Hwin']; [lia|].
    rewrite Hwin, Hwin'. f_equal.
    destruct (has_shape_lookup t w win Hs Hwin) as [Hl Hr].
    destruct (has_shape_lookup t' w win' Hs' Hwin') as [Hl' Hr'].
    apply list_eq. intros h.
    destruct (decide (h < 2)%nat) as [Hh|Hh].
    + destruct (lookup_lt_is_Some_2 win h) as [r Hrow]; [lia|].
      destruct (lookup_lt_is_Some_2 win' h) as [r' Hrow']; [lia|].
      rewrite Hrow, Hrow'. f_equal. apply list_eq. intros k.
      specialize (Hcell w h k). unfold cell in Hcell.
      rewrite Hwin, Hwin' in Hcell. simpl in Hcell.
      by rewrite Hrow, Hrow' in Hcell.
    + by rewrite !lookup_ge_None_2 by lia.
  - by rewrite !lookup_ge_None_2 by lia.
Qed.

Lemma is_Ok_dec {A} (r : result A) : {is_Ok r} + {¬ is_Ok r}.
Proof. destruct r as [x|e]; [left; by exists x|right; by intros [x ?]]. Defined.

(** A run of [encode] that returns had two tracks, a length that is not
    negative and only pitch offsets that numpy accepts. *)
Lemma encode_Ok_inv (midi : PrettyMIDI) (sps : Q) (t : tensor) :
  encode midi sps = Ok t →
  ∃ lh rh, instruments midi !! 0%nat = Some lh
           ∧ instruments midi !! 1%nat = Some rh
           ∧ 0 ≤ Qceiling (get_end_time midi * sps)
           ∧ Forall (λ note, is_Ok (pitch_offset note)) (notes lh)
           ∧ Forall (λ note, is_Ok (pitch_offset note)) (notes rh).
Proof.
  unfold encode, py_getitem, np_zeros. intros Hrun.
  destruct (instruments midi !! 0%nat) as [lh|]; [|done].
  destruct (instruments midi !! 1%nat) as [rh|]; [|done].
  cbn [mbind result_bind] in Hrun.
  destruct (Qceiling (get_end_time midi * sps) <? 0) eqn:Hn; [done|].
  apply Z.ltb_ge in Hn. cbn [mbind result_bind] in Hrun.
  exists lh, rh. split; [done|]. split; [done|]. split; [done|].
  destruct (Forall_Exists_dec (λ note, is_Ok (pitch_offset note))
              (λ note, ¬ is_Ok (pitch_offset note))
              (λ note, is_Ok_dec (pitch_offset note)) (notes lh)) as [Hl|Hl].
  - split; [done|].
    destruct (write_notes_Ok sps 0 (notes lh)
                (replicate (Z.to_nat (Qceiling (get_end_time midi * sps))) zero_window)
                Hl) as (t1 & Hrun1 & _).
    rewrite Hrun1 in Hrun. cbn [mbind result_bind] in Hrun.
    destruct (Forall_Exists_dec (λ note, is_Ok (pitch_offset note))
                (λ note, ¬ is_Ok (pitch_offset note))
                (λ note, is_Ok_dec (pitch_offset note)) (notes rh)) as [Hr|Hr]; [done|].
    by rewrite write_notes_Err in Hrun.
  - by rewrite write_notes_Err in Hrun.
Qed.

(** The loop over the notes never changes the shape of the array. *)
Lemma encode_has_shape (midi : PrettyMIDI) (sps : Q) (t : tensor) :
  encode midi sps = Ok t →
  has_shape t = true ∧ Z.of_nat (length t) = Qceiling (get_end_time midi * sps).
Proof.
  intros Hrun. destruct (encode_Ok_inv midi sps t Hrun) as (lh & rh & Hl & Hr & Hn & _).
  unfold encode, py_getitem, np_zeros in Hrun. rewrite Hl, Hr in Hrun.
  cbn [mbind result_bind] in Hrun.
  rewrite (proj2 (Z.ltb_ge _ _)) in Hrun by done. cbn [mbind result_bind] in Hrun.
  destruct (write_notes sps 0 _ (notes lh)) as [t1|] eqn:Hrun1; [|done].
  cbn [mbind result_bind] in Hrun.
  destruct (write_notes_shape _ _ _ _ _ Hrun1) as [Hs1 Hl1].
  destruct (write_notes_shape _ _ _ _ _ Hrun) as [Hs2 Hl2].
  rewrite has_shape_zeros in Hs1. rewrite length_replicate in Hl1.
  split; [congruence|lia].
Qed.

(** X1. Whatever the notes, an array that [encode] returns has
    [ceil(end_time * samples_per_sec)] windows, each of shape (2, 88), and
    so a cell at every position [w, h, k] with [h < 2] and [k < 88]. *)
Theorem encode_shape (midi : PrettyMIDI) (sps : Q) (t : tensor) :
  encode midi sps = Ok t →
  has_shape t = true
  ∧ Z.of_nat (length t) = Qceiling (get_end_time midi * sps)
  ∧ ∀ w h k, (w < length t)%nat → (h < 2)%nat → (k < 88)%nat →
             is_Some (cell t w h k).
Proof.
  intros Hrun. destruct (encode_has_shape midi sps t Hrun) as [Hshape Hlen].
  split; [done|]. split; [done|].
  intros w h k Hw Hh Hk.
  destruct (has_shape_cell t w h k Hshape Hw Hh Hk) as (_ & _ & b & _ & _ & _ & _ & ->).
  by eexists.
Qed.

Lemma encode_shape_witness :
  ∃ t, encode midi60_72 50 = Ok t ∧ has_shape t = true ∧ length t = 10%nat.
Proof.
  set (r := encode midi60_72 50).
  assert (Hrun : r = Ok (match r with Ok t => t | Err _ => [] end)).
  { vm_compute. reflexivity. }
  eexists. split; [exact Hrun|].
  destruct (encode_shape midi60_72 50 _ Hrun) as (Hshape & Hlen & _).
  split; [exact Hshape|]. apply Nat2Z.inj. rewrite Hlen. reflexivity.
Defined.

(** ** Notes as a set *)

Lemma existsb_set_equiv {A} (f : A → bool) (l l' : list A) :
  (∀ x, x ∈ l ↔ x ∈ l') → existsb f l = existsb f l'.
Proof.
  intros Heq. apply Bool.eq_iff_eq_true. rewrite !existsb_exists.
  split; intros (x & Hin%list_elem_of_In & Hf); exists x;
    (split; [apply list_elem_of_In; by apply Heq|done]).
Qed.

Lemma encode_bad_pitch (midi : PrettyMIDI) (sps : Q) (lh rh : Instrument) :
  instruments midi !! 0%nat = Some lh →
  instruments midi !! 1%nat = Some rh →
  0 ≤ Qceiling (get_end_time midi * sps) →
  Exists (λ note, ¬ is_Ok (pitch_offset note)) (notes lh ++ notes rh) →
  encode midi sps = Err "IndexError".
Proof.
  intros Hl Hr Hn Hbad. unfold encode, py_getitem, np_zeros. rewrite Hl, Hr.
  cbn [mbind result_bind]. rewrite (proj2 (Z.ltb_ge _ _)) by done.
  cbn [mbind result_bind].
  apply Exists_app in Hbad.
  destruct (write_notes_cases sps 0 (notes lh)
              (replicate (Z.to_nat (Qceiling (get_end_time midi * sps))) zero_window))
    as [[t1 Hrun1]|Herr].
  - rewrite Hrun1. cbn [mbind result_bind].
    destruct Hbad as [Hbad|Hbad]; [|by apply write_notes_Err].
    by rewrite write_notes_Err in Hrun1.
  - by rewrite Herr.
Qed.

(** X2. The encoded array depends on the notes of each hand only as a set:
    two files with the same end time whose first two tracks hold the same
    notes, in any order and any number of times, are encoded alike, to the
    same array or to the same exception. *)
Theorem encode_notes_as_sets (midi midi' : PrettyMIDI) (sps : Q) :
  (2 ≤ length (instruments midi))%nat →
  (2 ≤ length (instruments midi'))%nat →
  get_end_time midi = get_end_time midi' →
  (∀ h note, (h < 2)%nat → note ∈ hand_notes midi h ↔ note ∈ hand_notes midi' h) →
  encode midi sps = encode midi' sps.
Proof.
  intros Hlen Hlen' Hend Hnotes.
  destruct (instruments midi) as [|lh [|rh rest]] eqn:Hi; simpl in Hlen; [lia..|].
  destruct (instruments midi') as [|lh' [|rh' rest']] eqn:Hi'; simpl in Hlen'; [lia..|].
  assert (Hl : ∀ note, note ∈ notes lh ↔ note ∈ notes lh').
  { intros note. specialize (Hnotes 0%nat note). unfold hand_notes in Hnotes.
    rewrite Hi, Hi' in Hnotes. apply Hnotes. lia. }
  assert (Hr : ∀ note, note ∈ notes rh ↔ note ∈ notes rh').
  { intros note. specialize (Hnotes 1%nat note). unfold hand_notes in Hnotes.
    rewrite Hi, Hi' in Hnotes. apply Hnotes. lia. }
  destruct (decide (0 ≤ Qceiling (get_end_time midi * sps))) as [Hn|Hn].
  - destruct (Forall_Exists_dec (λ note, is_Ok (pitch_offset note))
                (λ note, ¬ is_Ok (pitch_offset note))
                (λ note, is_Ok_dec (pitch_offset note)) (notes lh ++ notes rh))
      as [Hok|Hbad].
    + apply Forall_app in Hok as [Hokl Hokr].
      assert (Hokl' : Forall (λ note, is_Ok (pitch_offset note)) (notes lh')).
      { rewrite Forall_forall in Hokl |- *. intros note Hin. by apply Hokl, Hl. }
      assert (Hokr' : Forall (λ note, is_Ok (pitch_offset note)) (notes rh')).
      { rewrite Forall_forall in Hokr |- *. intros note Hin. by apply Hokr, Hr. }
      destruct (encode_Ok midi sps lh rh) as (t & Hrun & Hlt & Hcell);
        [by rewrite Hi|by rewrite Hi|done..|].
      destruct (encode_Ok midi' sps lh' rh') as (t' & Hrun' & Hlt' & Hcell');
        [by rewrite Hi'|by rewrite Hi'|by rewrite <- Hend|done..|].
      rewrite Hrun, Hrun'. f_equal.
      destruct (encode_has_shape midi sps t Hrun) as [Hs _].
      destruct (encode_has_shape midi' sps t' Hrun') as [Hs' _].
      assert (Hll : length t = length t') by (rewrite Hlt, Hlt', Hend; done).
      apply tensor_ext; [done..|].
      intros w h k. rewrite Hcell, Hcell', <- Hll.
      destruct (decide _); [|done]. f_equal.
      by rewrite (existsb_set_equiv _ _ _ Hl), (existsb_set_equiv _ _ _ Hr).
    + rewrite (encode_bad_pitch midi sps lh rh); [|by rewrite Hi..|done|done].
      symmetry. apply (encode_bad_pitch midi' sps lh' rh');
        [by rewrite Hi'..|by rewrite <- Hend|].
      apply Exists_exists in Hbad as (note & Hin & Hnote).
      apply Exists_exists. exists note. split; [|done].
      apply elem_of_app in Hin as [Hin|Hin]; apply elem_of_app;
        [left; by apply Hl|right; by apply Hr].
  - unfold encode, py_getitem, np_zeros. rewrite Hi, Hi', <- Hend.
    cbn [lookup list_lookup mbind result_bind].
    by rewrite (proj2 (Z.ltb_lt _ _)) by lia.
Qed.

Lemma encode_notes_as_sets_witness :
  encode midi60_72 50 = encode midi60_72_shuffled 50.
Proof.
  apply encode_notes_as_sets; [cbn; lia|cbn; lia|reflexivity|].
  intros h note Hh. unfold hand_notes.
  destruct h as [|[|h]]; [| |lia]; cbn; [|done].
  rewrite !elem_of_cons. tauto.
Defined.

(** ** Pitches below the keyboard *)

(** X3. A pitch below 21 is not rejected: [note.pitch - 21] is then a
    negative index, which numpy counts from the end of the pitch axis, so the
    note is written 88 offsets higher, at offset [pitch + 67].  (Pitch 20 is
    written as the highest key, offset 87.) *)
Theorem encode_low_pitch_wraps (midi : PrettyMIDI) (sps : Q) (t : tensor)
    (h : nat) (note : Note) (w : nat) :
  encode midi sps = Ok t →
  (h < 2)%nat → note ∈ hand_notes midi h →
  0 ≤ pitch note < 21 →
  0 ≤ start_idx sps note ≤ Z.of_nat w → Z.of_nat w < end_idx sps note →
  (w < length t)%nat →
  cell t w h (Z.to_nat (pitch note + 67)) = Some true.
Proof.
  intros Hrun Hh Hin Hp Hs He Hw.
  destruct (encode_Ok_inv midi sps t Hrun) as (lh & rh & Hl & Hr & Hn & Hokl & Hokr).
  destruct (encode_Ok midi sps lh rh Hl Hr Hn Hokl Hokr) as (t' & Hrun' & _ & Hcell).
  assert (t' = t) as -> by congruence.
  rewrite Hcell, decide_True by lia. f_equal.
  assert (Hwr : writes (length t) sps h note w h (Z.to_nat (pitch note + 67)) = true).
  { unfold writes. rewrite !andb_true_iff, !bool_decide_eq_true.
    rewrite py_slice_bound_le, py_slice_bound_gt by lia.
    split; [lia|]. split; [done|].
    unfold pitch_offset, py_index.
    rewrite (proj2 (Z.leb_gt 0 _)) by lia. cbn [andb].
    rewrite (proj2 (Z.leb_le _ _)), (proj2 (Z.ltb_lt _ 0)) by lia. cbn [andb].
    do 2 f_equal. lia. }
  apply orb_true_iff. unfold hand_notes in Hin.
  destruct h as [|[|h]]; [| |lia].
  - left. rewrite Hl in Hin. apply existsb_exists. exists note.
    split; [by apply list_elem_of_In|done].
  - right. rewrite Hr in Hin. apply existsb_exists. exists note.
    split; [by apply list_elem_of_In|done].
Qed.

Lemma encode_low_pitch_wraps_witness :
  ∃ t, encode midi_low 50 = Ok t ∧ cell t 2 0 87 = Some true.
Proof.
  set (r := encode midi_low 50).
  assert (Hrun : r = Ok (match r with Ok t => t | Err _ => [] end)).
  { vm_compute. reflexivity. }
  eexists. split; [exact Hrun|].
  apply (encode_low_pitch_wraps midi_low 50 _ 0 note_low 2 Hrun).
  - lia.
  - unfold hand_notes. cbn. apply list_elem_of_here.
  - cbn. lia.
  - vm_compute. split; discriminate.
  - vm_compute. reflexivity.
  - vm_compute. lia.
Defined.

(** ** No note is lost *)

Lemma floor_lt_ceiling (x y : Q) : (x < y)%Q → Qfloor x < Qceiling y.
Proof.
  intros Hlt. rewrite Zlt_Qlt.
  eapply Qle_lt_trans; [apply Qfloor_le|].
  eapply Qlt_le_trans; [apply Hlt|apply Qle_ceiling].
Qed.

(** X4. Quantization loses no note: on valid tracks whose reported end time
    covers the last note, every note covers at least one window of the
    array, its interval lies inside it, and the cell of its first window,
    [floor(start * rate)], is true. *)
Theorem encode_no_note_lost (midi : PrettyMIDI) (ms_window : Z) (h : nat) (note : Note) :
  valid_tracks midi = true → 0 < ms_window →
  Qle_bool (track_end_time midi) (get_end_time midi) = true →
  (h < 2)%nat → note ∈ hand_notes midi h →
  let rate := (1000 / inject_Z ms_window)%Q in
  ∃ t, encode_ms midi ms_window = Ok t
       ∧ 0 ≤ start_idx rate note < end_idx rate note
       ∧ end_idx rate note ≤ Z.of_nat (length t)
       ∧ cell t (Z.to_nat (start_idx rate note)) h (Z.to_nat (pitch note - 21))
         = Some true.
Proof.
  intros Hv Hms Hend%Qle_bool_iff Hh Hin rate.
  destruct (samples_per_sec_pos ms_window Hms) as [_ Hpos]. fold rate in Hpos.
  destruct (encode_ms_valid midi ms_window Hv Hms) as (t & Hrun & Hlen & Hn & Hcell).
  fold rate in Hlen, Hn, Hcell.
  pose proof (hand_notes_valid midi h note Hv Hin) as Hvn.
  destruct (valid_note_idx rate note Hpos Hvn) as (Hs & He & _).
  apply valid_note_spec in Hvn as (_ & Hlt & Hp).
  assert (Hse : start_idx rate note < end_idx rate note).
  { unfold start_idx, end_idx. apply floor_lt_ceiling.
    by apply Qmult_lt_compat_r. }
  assert (Het : end_idx rate note ≤ Z.of_nat (length t)).
  { rewrite Hlen, Z2Nat.id by done. unfold end_idx.
    apply Qceiling_resp_le, Qmult_le_compat_r; [|by apply Qlt_le_weak].
    eapply Qle_trans; [by eapply end_le_track_end_time|done]. }
  exists t. split; [done|]. split; [lia|]. split; [done|].
  destruct (Hcell (Z.to_nat (start_idx rate note)) h (Z.to_nat (pitch note - 21)))
    as (b & -> & Hb); [lia..|].
  f_equal. apply Hb. exists note. split; [done|]. split; lia.
Qed.

Lemma encode_no_note_lost_witness :
  ∃ t, encode_ms midi60_72 20 = Ok t ∧ cell t 0 1 51 = Some true.
Proof.
  destruct (encode_no_note_lost midi60_72 20 1 note72) as (t & Hrun & _ & _ & Hcell).
  - reflexivity.
  - lia.
  - reflexivity.
  - lia.
  - unfold hand_notes. cbn. apply list_elem_of_here.
  - exists t. split; [exact Hrun|exact Hcell].
Defined.

(** ** A negative window *)

Lemma Qmult_nonneg_nonpos (x y : Q) : (0 <= x)%Q → (y <= 0)%Q → (x * y <= 0)%Q.
Proof.
  destruct x as [n d], y as [n' d']. unfold Qle, Qmult. simpl. nia.
Qed.

Lemma rate_negative (ms_window : Z) :
  ms_window < 0 →
  samples_per_sec ms_window = Ok (1000 / inject_Z ms_window)%Q
  ∧ (1000 / inject_Z ms_window <= 0)%Q.
Proof.
  intros Hms. split.
  - unfold samples_per_sec. by rewrite (proj2 (Z.eqb_neq _ _)) by lia.
  - destruct ms_window as [|p|p]; [lia..|]. unfold Qle. simpl. lia.
Qed.

(** X5. A negative [ms_window] is not rejected as such.  The rate is then
    negative, and so is every window count except 0: on a file with two
    tracks the encoder raises the ValueError of [np.zeros] when
    [ceil(end_time * rate)] is negative, and whenever it returns, the array
    it returns is empty. *)
Theorem encode_negative_window (midi : PrettyMIDI) (ms_window : Z) :
  ms_window < 0 → Qle_bool 0 (get_end_time midi) = true →
  (∀ t, encode_ms midi ms_window = Ok t → t = [])
  ∧ ((2 ≤ length (instruments midi))%nat →
     Qceiling (get_end_time midi * (1000 / inject_Z ms_window)) < 0 →
     encode_ms midi ms_window = Err "ValueError").
Proof.
  intros Hms Hend%Qle_bool_iff.
  destruct (rate_negative ms_window Hms) as [Hsps Hneg].
  unfold encode_ms. rewrite Hsps. cbn [mbind result_bind].
  split.
  - intros t Hrun. destruct (encode_has_shape _ _ _ Hrun) as [_ Hlen].
    apply length_zero_iff_nil.
    pose proof (Qceiling_resp_le _ 0 (Qmult_nonneg_nonpos _ _ Hend Hneg)) as Hle.
    change (Qceiling 0) with 0 in Hle. lia.
  - intros Hlen Hn. unfold encode, py_getitem, np_zeros.
    destruct (instruments midi) as [|lh [|rh rest]]; simpl in Hlen; [lia..|].
    cbn [lookup list_lookup mbind result_bind].
    by rewrite (proj2 (Z.ltb_lt _ _)) by done.
Qed.

Lemma encode_negative_window_witness :
  encode_ms midi_one_second (-20) = Err "ValueError"
  ∧ ∀ t, encode_ms midi_no_time (-20) = Ok t → t = [].
Proof.
  split.
  - destruct (encode_negative_window midi_one_second (-20)) as [_ Herr];
      [lia|reflexivity|].
    apply Herr; [cbn; lia|reflexivity].
  - destruct (encode_negative_window midi_no_time (-20)) as [Hempty _];
      [lia|reflexivity|].
    exact Hempty.
Defined.

(** * Further properties of [convert] *)

(** ** Runs that fail *)

Lemma convert_files_app (ms_window : Z) (sps : Q) (overwrite : bool)
    (l1 l2 : list (string * PrettyMIDI)) (d : disk) :
  convert_files ms_window sps overwrite (l1 ++ l2) d
  = match convert_files ms_window sps overwrite l1 d with
    | (Ok _, d1) => convert_files ms_window sps overwrite l2 d1
    | (Err e, d1) => (Err e, d1)
    end.
Proof.
  revert d. induction l1 as [|f l1 IH]; intros d; [done|].
  simpl. destruct (convert_file ms_window sps overwrite f d) as [[[]|e] d1]; [|done].
  apply IH.
Qed.

(** X6. [convert] stops at the first file whose encoding raises: the
    exception is the result of the run, the files before it have been
    processed and their artifacts stay on the disk, the failing file has
    been logged but not saved, and the files after it are neither logged
    nor encoded. *)
Theorem convert_stops_at_failure (before after : list (string * PrettyMIDI))
    (file : string * PrettyMIDI) (ms_window : Z) (sps : Q) (overwrite : bool)
    (d d1 : disk) (e : string) :
  samples_per_sec ms_window = Ok sps →
  convert_files ms_window sps overwrite before d = (Ok (), d1) →
  reencodes ms_window overwrite d1 file = true →
  encode file.2 sps = Err e →
  ∃ d', convert (before ++ file :: after) ms_window overwrite d = (Err e, d')
        ∧ npy_files d' = npy_files d1
        ∧ debug_log d' = debug_log d1 ++ [converting_msg file.1].
Proof.
  intros Hsps Hbefore Hre Henc. eexists. split.
  - unfold convert.
    assert (Hfound : get_files_from_path (before ++ file :: after)
                     = Ok (before ++ file :: after)).
    { unfold get_files_from_path. by destruct before. }
    rewrite Hfound, Hsps, convert_files_app, Hbefore. simpl.
    rewrite convert_file_encode by done. rewrite Henc. reflexivity.
  - done.
Qed.

Lemma convert_stops_at_failure_witness :
  ∃ d', convert three_files 20 true empty_disk = (Err "IndexError", d')
        ∧ is_Some (npy_files d' !! npy_name "a.mid" 20)
        ∧ npy_files d' !! npy_name "bad.mid" 20 = None
        ∧ npy_files d' !! npy_name "c.mid" 20 = None.
Proof.
  set (sps := (1000 / inject_Z 20)%Q).
  set (d1 := (convert_files 20 sps true [("a.mid"%string, midi60)] empty_disk).2).
  destruct (convert_stops_at_failure [("a.mid"%string, midi60)]
              [("c.mid"%string, midi60_72)] ("bad.mid"%string, midi_one_track)
              20 sps true empty_disk d1 "IndexError")
    as (d' & Hrun & Hnpy & _).
  - reflexivity.
  - vm_compute. reflexivity.
  - reflexivity.
  - reflexivity.
  - exists d'. split; [exact Hrun|]. rewrite Hnpy.
    split; [|split]; vm_compute; [by eexists|done..].
Defined.

(** ** What a run never does *)

Lemma convert_file_effect (ms_window : Z) (sps : Q) (overwrite : bool)
    (file : string * PrettyMIDI) (d : disk) :
  let d' := (convert_file ms_window sps overwrite file d).2 in
  (∀ key t, npy_files d !! key = Some t → is_Some (npy_files d' !! key))
  ∧ (overwrite = false →
     ∀ key t, npy_files d !! key = Some t → npy_files d' !! key = Some t)
  ∧ debug_log d `prefix_of` debug_log d'
  ∧ (∀ key, is_Some (npy_files d' !! key) →
            is_Some (npy_files d !! key) ∨ key = npy_name file.1 ms_window).
Proof.
  cbn zeta. destruct (reencodes ms_window overwrite d file) eqn:Hre.
  - rewrite convert_file_encode by done.
    destruct (encode file.2 sps) as [hands|e]; simpl.
    + split; [|split; [|split]].
      * intros key t Hkey.
        destruct (decide (key = npy_name file.1 ms_window)) as [->|Hne].
        -- rewrite lookup_insert_eq. by eexists.
        -- rewrite lookup_insert_ne by done. by eexists.
      * intros -> key t Hkey.
        apply reencodes_spec in Hre as [?|Hnone]; [done|].
        rewrite lookup_insert_ne; [done|]. intros <-. congruence.
      * by apply prefix_app_r.
      * intros key Hsome.
        destruct (decide (key = npy_name file.1 ms_window)) as [->|Hne]; [by right|].
        left. by rewrite lookup_insert_ne in Hsome.
    + split; [by eauto|]. split; [done|]. split; [by apply prefix_app_r|by left].
  - rewrite convert_file_skip by done. simpl.
    split; [by eauto|]. split; [done|]. split; [done|by left].
Qed.

Lemma convert_files_effect (ms_window : Z) (sps : Q) (overwrite : bool)
    (files : list (string * PrettyMIDI)) (d : disk) :
  let d' := (convert_files ms_window sps overwrite files d).2 in
  (∀ key t, npy_files d !! key = Some t → is_Some (npy_files d' !! key))
  ∧ (overwrite = false →
     ∀ key t, npy_files d !! key = Some t → npy_files d' !! key = Some t)
  ∧ debug_log d `prefix_of` debug_log d'
  ∧ (∀ key, is_Some (npy_files d' !! key) →
            is_Some (npy_files d !! key)
            ∨ ∃ file, file ∈ files ∧ key = npy_name file.1 ms_window).
Proof.
  cbn zeta. revert d. induction files as [|f rest IH]; intros d.
  - simpl. split; [by eauto|]. split; [done|]. split; [done|by left].
  - simpl.
    pose proof (convert_file_effect ms_window sps overwrite f d) as Hstep.
    cbn zeta in Hstep.
    destruct (convert_file ms_window sps overwrite f d) as [[[]|e] d1]; simpl in *.
    + destruct Hstep as (H1 & H2 & H3 & H4).
      destruct (IH d1) as (I1 & I2 & I3 & I4).
      split; [|split; [|split]].
      * intros key t Hkey. destruct (H1 key t Hkey) as [t1 Ht1]. by eapply I1.
      * intros Hov key t Hkey. eapply I2; [done|]. by eapply H2.
      * by etrans.
      * intros key Hsome. destruct (I4 key Hsome) as [Hd1|(file & Hin & ->)].
        -- destruct (H4 key Hd1) as [?| ->]; [by left|].
           right. exists f. split; [apply list_elem_of_here|done].
        -- right. exists file. split; [by apply list_elem_of_further|done].
    + destruct Hstep as (H1 & H2 & H3 & H4).
      split; [done|]. split; [done|]. split; [done|].
      intros key Hsome. destruct (H4 key Hsome) as [?| ->]; [by left|].
      right. exists f. split; [apply list_elem_of_here|done].
Qed.

(** X7. Whatever its outcome, a run of [convert] deletes no artifact, only
    appends to the log, and creates artifacts only under the keys of the
    files it was given; without [overwrite] it changes no artifact that was
    there before. *)
Theorem convert_keeps_artifacts (found : list (string * PrettyMIDI))
    (ms_window : Z) (overwrite : bool) (d : disk) :
  let d' := (convert found ms_window overwrite d).2 in
  (∀ key t, npy_files d !! key = Some t → is_Some (npy_files d' !! key))
  ∧ (overwrite = false →
     ∀ key t, npy_files d !! key = Some t → npy_files d' !! key = Some t)
  ∧ debug_log d `prefix_of` debug_log d'
  ∧ (∀ key, is_Some (npy_files d' !! key) →
            is_Some (npy_files d !! key)
            ∨ ∃ file, file ∈ found ∧ key = npy_name file.1 ms_window).
Proof.
  cbn zeta. unfold convert.
  destruct (get_files_from_path found) as [midi_files|] eqn:Hfound;
    [|simpl; split; [by eauto|]; split; [done|]; split; [done|by left]].
  assert (midi_files = found) as ->.
  { unfold get_files_from_path in Hfound. destruct found; [done|]. by injection Hfound. }
  destruct (samples_per_sec ms_window) as [sps|];
    [|simpl; split; [by eauto|]; split; [done|]; split; [done|by left]].
  apply convert_files_effect.
Qed.

Lemma convert_keeps_artifacts_witness :
  npy_files (convert two_files 20 false disk_with_a).2 !! npy_name "a.mid" 20
  = Some stale.
Proof.
  destruct (convert_keeps_artifacts two_files 20 false disk_with_a)
    as (_ & Hkeep & _).
  apply Hkeep; reflexivity.
Defined.

(** ** A second run *)

Lemma convert_files_all_skipped (ms_window : Z) (sps : Q)
    (files : list (string * PrettyMIDI)) (d : disk) :
  (∀ file, file ∈ files → is_Some (npy_files d !! npy_name file.1 ms_window)) →
  convert_files ms_window sps false files d = (Ok (), d).
Proof.
  induction files as [|f rest IH]; intros Hall; [done|].
  simpl. rewrite convert_file_skip.
  - apply IH. intros file Hin. by apply Hall, list_elem_of_further.
  - unfold reencodes. rewrite bool_decide_eq_true_2; [done|].
    apply Hall, list_elem_of_here.
Qed.

Lemma convert_files_all_saved (ms_window : Z) (sps : Q) (overwrite : bool)
    (files : list (string * PrettyMIDI)) (d d' : disk) :
  convert_files ms_window sps overwrite files d = (Ok (), d') →
  ∀ file, file ∈ files → is_Some (npy_files d' !! npy_name file.1 ms_window).
Proof.
  revert d. induction files as [|f rest IH]; intros d Hrun file Hin.
  - by apply elem_of_nil in Hin.
  - simpl in Hrun.
    destruct (convert_file ms_window sps overwrite f d) as [[[]|e] d1] eqn:Hstep;
      [|done].
    apply elem_of_cons in Hin as [->|Hin]; [|by eapply IH].
    assert (Hsaved : is_Some (npy_files d1 !! npy_name f.1 ms_window)).
    { destruct (reencodes ms_window overwrite d f) eqn:Hre.
      - rewrite convert_file_encode in Hstep by done.
        destruct (encode f.2 sps); [|done]. injection Hstep as <-. simpl.
        rewrite lookup_insert_eq. by eexists.
      - rewrite convert_file_skip in Hstep by done. injection Hstep as <-.
        unfold reencodes in Hre. apply orb_false_elim in Hre as [_ Hre].
        apply negb_false_iff in Hre. by apply bool_decide_eq_true in Hre. }
    destruct Hsaved as [t Ht].
    pose proof (convert_files_effect ms_window sps overwrite rest d1) as (Hkeep & _).
    rewrite Hrun in Hkeep. by eapply Hkeep.
Qed.

(** X8. After a run of [convert] that completed, a second run over the same
    files and [ms_window] without [overwrite] finds every artifact and does
    nothing: it completes and leaves the disk, log included, as it was. *)
Theorem convert_second_run_skips (found : list (string * PrettyMIDI))
    (ms_window : Z) (overwrite : bool) (d d' : disk) :
  convert found ms_window overwrite d = (Ok (), d') →
  convert found ms_window false d' = (Ok (), d').
Proof.
  unfold convert. intros Hrun.
  destruct (get_files_from_path found) as [midi_files|]; [|done].
  destruct (samples_per_sec ms_window) as [sps|]; [|done].
  apply convert_files_all_skipped. by eapply convert_files_all_saved.
Qed.

Lemma convert_second_run_skips_witness :
  ∃ d', convert two_files 20 true disk_with_a = (Ok (), d')
        ∧ convert two_files 20 false d' = (Ok (), d').
Proof.
  exists (convert two_files 20 true disk_with_a).2.
  assert (Hrun : convert two_files 20 true disk_with_a
                 = (Ok (), (convert two_files 20 true disk_with_a).2)).
  { vm_compute. reflexivity. }
  split; [exact Hrun|].
  exact (convert_second_run_skips two_files 20 true disk_with_a _ Hrun).
Defined.

(** * The files under a path *)

Lemma foldl_extend {A B} (f : B → list A) (acc : list A) (l : list B) :
  foldl (λ files x, files ++ f x) acc l = acc ++ mjoin (f <$> l).
Proof.
  revert acc. induction l as [|x l IH]; intros acc; simpl.
  - by rewrite app_nil_r.
  - by rewrite IH, app_assoc.
Qed.

(** X9. [get_files_from_path] never returns an empty list.  A path that is
    a file is returned alone, whatever the extensions; otherwise the
    matches of the patterns are listed pattern after pattern, a file once
    for every pattern it matches, and the call raises FileNotFoundError
    exactly when no pattern matches anything.  In that second case the
    result is that of the function on the list of matches used in
    [convert] and [Dataset_init]. *)
Theorem get_files_from_path_os_outcome (isfile : string → bool)
    (join : string → string → string) (glob : string → list string)
    (path : string) (extensions : list string) :
  let matches := mjoin ((λ file_type, glob (join path file_type)) <$> extensions) in
  let r := get_files_from_path_os isfile join glob path extensions in
  r ≠ Ok []
  ∧ (isfile path = true → r = Ok [path])
  ∧ (isfile path = false → r = get_files_from_path matches)
  ∧ (r = Err "FileNotFoundError"
     ↔ isfile path = false
       ∧ ∀ file_type, file_type ∈ extensions → glob (join path file_type) = [])
  ∧ (∀ e, r = Err e → e = "FileNotFoundError"%string).
Proof.
  cbn zeta. unfold get_files_from_path_os. rewrite foldl_extend. simpl.
  set (matches := mjoin _).
  assert (Hnil : matches = []
                 ↔ ∀ file_type, file_type ∈ extensions
                                → glob (join path file_type) = []).
  { unfold matches. clear. induction extensions as [|x l IH]; simpl.
    - split; [by intros _ ? ?%elem_of_nil|done].
    - split.
      + intros [Hx Hl]%app_eq_nil ft [->|Hin]%elem_of_cons; [done|].
        by apply IH.
      + intros Hall. rewrite (Hall x) by apply list_elem_of_here. simpl.
        apply IH. intros ft Hin. by apply Hall, list_elem_of_further. }
  destruct (isfile path).
  - split; [done|]. split; [done|]. split; [done|]. split; [|done].
    split; [done|]. by intros [? _].
  - destruct matches as [|f rest]; simpl.
    + split; [done|]. split; [done|]. split; [done|]. split; [|by intros ? [= <-]].
      split; [|done]. intros _. split; [done|]. by apply Hnil.
    + split; [done|]. split; [done|]. split; [done|]. split; [|done].
      split; [done|]. intros [_ Hall]. by apply Hnil in Hall.
Qed.

Lemma get_files_from_path_os_outcome_witness :
  get_files_from_path_os (λ _, false) join_example glob_example "dir"
    ["*.mid"; "*.mi*"]%string
  = Ok ["dir/a.mid"; "dir/a.mid"; "dir/b.midi"]%string
  ∧ get_files_from_path_os (λ _, true) join_example glob_example "x.txt"
      ["*.mid"; "*.mi*"]%string
    = Ok ["x.txt"%string].
Proof.
  destruct (get_files_from_path_os_outcome (λ _, false) join_example glob_example
              "dir" ["*.mid"; "*.mi*"]%string) as (_ & _ & Hdir & _).
  destruct (get_files_from_path_os_outcome (λ _, true) join_example glob_example
              "x.txt" ["*.mid"; "*.mi*"]%string) as (_ & Hfile & _).
  split; [rewrite Hdir by reflexivity; reflexivity|by apply Hfile].
Defined.

(** * From [convert] to [Dataset] *)

Lemma convert_file_shapes (ms_window : Z) (sps : Q) (overwrite : bool)
    (file : string * PrettyMIDI) (d : disk) :
  (∀ key t, npy_files d !! key = Some t → has_shape t = true) →
  ∀ key t, npy_files (convert_file ms_window sps overwrite file d).2 !! key = Some t →
           has_shape t = true.
Proof.
  intros Hd key t. destruct (reencodes ms_window overwrite d file) eqn:Hre.
  - rewrite convert_file_encode by done.
    destruct (encode file.2 sps) as [hands|e] eqn:Henc; simpl; [|apply Hd].
    destruct (decide (key = npy_name file.1 ms_window)) as [->|Hne].
    + rewrite lookup_insert_eq. intros [= <-]. by apply encode_has_shape in Henc as [? _].
    + rewrite lookup_insert_ne by done. apply Hd.
  - rewrite convert_file_skip by done. apply Hd.
Qed.

Lemma convert_files_shapes (ms_window : Z) (sps : Q) (overwrite : bool)
    (files : list (string * PrettyMIDI)) (d : disk) :
  (∀ key t, npy_files d !! key = Some t → has_shape t = true) →
  ∀ key t, npy_files (convert_files ms_window sps overwrite files d).2 !! key = Some t →
           has_shape t = true.
Proof.
  revert d. induction files as [|f rest IH]; intros d Hd; [done|]. simpl.
  pose proof (convert_file_shapes ms_window sps overwrite f d Hd) as Hstep.
  destruct (convert_file ms_window sps overwrite f d) as [[[]|e] d1]; simpl in *.
  - by apply IH.
  - done.
Qed.

(** X10. The arrays [convert] leaves on the disk are arrays [Dataset] can
    load: if every artifact had shape (n, 2, 88) before a run it has after
    it, whatever the outcome of the run, and [Dataset.__init__] on any
    arrays of the disk and a padding that is not negative returns a
    dataset whose array holds the two paddings and every window of the
    files. *)
Theorem convert_then_Dataset (found : list (string * PrettyMIDI)) (ms_window : Z)
    (overwrite : bool) (d : disk) (npys : list tensor) (past : Z) :
  (∀ key t, npy_files d !! key = Some t → has_shape t = true) →
  (∀ t, t ∈ npys →
        ∃ key, npy_files (convert found ms_window overwrite d).2 !! key = Some t) →
  npys ≠ [] → 0 ≤ past →
  ∃ ds, Dataset_init npys past = Ok ds
        ∧ wf_dataset ds
        ∧ Z.of_nat (length (data ds)) = 2 * past + Z.of_nat (length (concat npys)).
Proof.
  intros Hd Hnpys Hne Hpast.
  assert (Hshapes : ∀ key t,
            npy_files (convert found ms_window overwrite d).2 !! key = Some t →
            has_shape t = true).
  { unfold convert. destruct (get_files_from_path found); [|done].
    destruct (samples_per_sec ms_window); [|done]. by apply convert_files_shapes. }
  assert (Hall : forallb has_shape npys = true).
  { apply forallb_forall. intros t Hin%list_elem_of_In.
    destruct (Hnpys t Hin) as [key Hkey]. by eapply Hshapes. }
  assert (Hrun : Dataset_init npys past
                 = Ok {| n_windows_past := past;
                         data := replicate (Z.to_nat past) zero_window ++ concat npys
                                 ++ replicate (Z.to_nat past) zero_window |}).
  { unfold Dataset_init, get_files_from_path, np_zeros.
    destruct npys as [|t ts]; [done|]. cbn [mbind result_bind].
    rewrite (proj2 (Z.ltb_ge past 0)) by done. cbn [mbind result_bind].
    by rewrite Hall. }
  eexists. split; [exact Hrun|].
  split; [by apply Dataset_init_wf in Hrun as [? _]|].
  cbn [data]. rewrite !length_app, !length_replicate. lia.
Qed.

Lemma convert_then_Dataset_witness :
  ∃ t ds, npy_files (convert two_files 20 true empty_disk).2 !! npy_name "b.mid" 20
          = Some t
          ∧ Dataset_init [t] 3 = Ok ds ∧ wf_dataset ds.
Proof.
  set (r := npy_files (convert two_files 20 true empty_disk).2 !! npy_name "b.mid" 20).
  assert (Hr : r = Some (default [] r)) by (vm_compute; reflexivity).
  exists (default [] r).
  destruct (convert_then_Dataset two_files 20 true empty_disk [default [] r] 3)
    as (ds & Hrun & Hwf & _).
  - intros key t Hkey. vm_compute in Hkey. discriminate.
  - intros t ->%list_elem_of_singleton. exists (npy_name "b.mid" 20). exact Hr.
  - discriminate.
  - lia.
  - exists ds. split; [exact Hr|]. split; [exact Hrun|exact Hwf].
Defined.

(** * Artifacts of different windows *)

Lemma app_String (c : ascii) (s t : string) : String c s +:+ t = String c (s +:+ t).
Proof. reflexivity. Qed.

Lemma has_char_app (c : ascii) (s t : string) :
  has_char c (s +:+ t) = has_char c s || has_char c t.
Proof.
  induction s as [|c' s IH]; [done|].
  rewrite app_String. simpl. by rewrite IH, orb_assoc.
Qed.

Lemma has_char_pretty_N_go (x : N) (s : string) :
  has_char "_"%char s = false → has_char "_"%char (pretty_N_go x s) = false.
Proof.
  revert s. induction (N.lt_wf_0 x) as [x _ IH]; intros s Hs.
  destruct (decide (x = 0)%N) as [->|Hx]; [by rewrite pretty_N_go_0|].
  rewrite pretty_N_go_step by lia.
  apply IH; [apply N.div_lt; lia|].
  simpl. rewrite Hs, orb_false_r.
  unfold pretty_N_char. by repeat case_match.
Qed.

(** [str(n)] of an integer holds no underscore. *)
Lemma has_char_pretty_Z (z : Z) : has_char "_"%char (pretty z) = false.
Proof.
  destruct z as [|p|p]; [done| |].
  - unfold pretty, pretty_Z, pretty, pretty_positive, pretty, pretty_N.
    destruct (decide _); [done|]. by apply has_char_pretty_N_go.
  - unfold pretty, pretty_Z. rewrite has_char_app. simpl.
    unfold pretty, pretty_positive, pretty, pretty_N.
    destruct (decide _); [done|]. by apply has_char_pretty_N_go.
Qed.

Lemma split_at_last_underscore (f f' a a' : string) :
  has_char "_"%char a = false → has_char "_"%char a' = false →
  f +:+ String "_"%char a = f' +:+ String "_"%char a' → f = f' ∧ a = a'.
Proof.
  intros Ha Ha'. revert f'. induction f as [|c f IH]; intros [|c' f'] Heq.
  - by injection Heq as ->.
  - rewrite app_String in Heq. injection Heq as <- ->.
    rewrite has_char_app in Ha. simpl in Ha. by rewrite orb_true_r in Ha.
  - rewrite app_String in Heq. injection Heq as -> <-.
    rewrite has_char_app in Ha'. simpl in Ha'. by rewrite orb_true_r in Ha'.
  - rewrite !app_String in Heq. injection Heq as -> Heq.
    by destruct (IH _ Heq) as [-> ->].
Qed.

(** The name of an artifact determines the MIDI file and the window. *)
Lemma npy_name_inj_pair (f f' : string) (ms_window ms_window' : Z) :
  npy_name f ms_window = npy_name f' ms_window' → f = f' ∧ ms_window = ms_window'.
Proof.
  unfold npy_name. intros Heq.
  apply (split_at_last_underscore f f' (pretty ms_window +:+ "ms" +:+ ".npy")
           (pretty ms_window' +:+ "ms" +:+ ".npy")) in Heq as [-> Heq].
  - split; [done|]. apply (inj pretty).
    by apply (string_app_inj_r ("ms" +:+ ".npy")).
  - by rewrite has_char_app, has_char_pretty_Z.
  - by rewrite has_char_app, has_char_pretty_Z.
Qed.

Lemma convert_files_other_key (ms_window : Z) (sps : Q) (overwrite : bool)
    (files : list (string * PrettyMIDI)) (d : disk) (key : string) :
  (∀ file, file ∈ files → key ≠ npy_name file.1 ms_window) →
  npy_files (convert_files ms_window sps overwrite files d).2 !! key
  = npy_files d !! key.
Proof.
  revert d. induction files as [|f rest IH]; intros d Hkey; [done|]. simpl.
  assert (Hstep : npy_files (convert_file ms_window sps overwrite f d).2 !! key
                  = npy_files d !! key).
  { destruct (reencodes ms_window overwrite d f) eqn:Hre.
    - rewrite convert_file_encode by done.
      destruct (encode f.2 sps); simpl; [|done].
      rewrite lookup_insert_ne; [done|]. intros Heq.
      by apply (Hkey f); [apply list_elem_of_here|].
    - by rewrite convert_file_skip. }
  destruct (convert_file ms_window sps overwrite f d) as [[[]|e] d1]; simpl in *.
  - rewrite IH; [done|]. intros file Hin. by apply Hkey, list_elem_of_further.
  - done.
Qed.

(** X11. The name of an artifact determines both the MIDI file and
    [ms_window], so the artifacts of different windows live side by side: a
    run of [convert] with one window, with or without [overwrite] and
    whatever its outcome, neither creates, changes nor removes the artifact
    of any file for another window. *)
Theorem convert_other_window_kept (found : list (string * PrettyMIDI))
    (ms_window ms_window' : Z) (overwrite : bool) (d : disk) (midi_file : string) :
  ms_window' ≠ ms_window →
  npy_files (convert found ms_window overwrite d).2 !! npy_name midi_file ms_window'
  = npy_files d !! npy_name midi_file ms_window'.
Proof.
  intros Hne. unfold convert.
  destruct (get_files_from_path found) as [midi_files|]; [|done].
  destruct (samples_per_sec ms_window) as [sps|]; [|done].
  apply convert_files_other_key. intros file _ Heq.
  by apply npy_name_inj_pair in Heq as [_ ?].
Qed.

Lemma convert_other_window_kept_witness :
  npy_files (convert two_files 10 true disk_with_a).2 !! npy_name "a.mid" 20
  = Some stale.
Proof.
  rewrite (convert_other_window_kept two_files 10 20 true disk_with_a "a.mid") by lia.
  reflexivity.
Defined.

(** * Further properties of the sampler *)

(** ** A call for no sample *)

Lemma next_batch_zero (d : Dataset) (g : rng) :
  0 ≤ n_windows_past d →
  next_batch 0 {| self := d; random := g |}
  = (Ok ([], []), {| self := d; random := g |}).
Proof.
  intros Hpast. unfold next_batch, np_zeros4. cbn [self].
  rewrite (proj2 (Z.ltb_ge (n_windows_past d + 1) 0)) by lia.
  change (Z.to_nat 0) with 0%nat. cbn [Z.ltb Z.compare orb sample_loop replicate].
  by rewrite make_batch_Ok by lia.
Qed.

(** X12. A call of [next_batch] for no sample returns the empty batch and
    draws nothing, also on a dataset that has no window to draw from; a
    negative number of samples is the ValueError of [np.zeros], raised
    before anything is drawn. *)
Theorem next_batch_no_samples (d : Dataset) (g : rng) (n_samples : Z) :
  0 ≤ n_windows_past d → n_samples ≤ 0 →
  next_batch n_samples {| self := d; random := g |}
  = (if n_samples <? 0 then Err "ValueError" else Ok ([], []),
     {| self := d; random := g |}).
Proof.
  intros Hpast Hn. destruct (n_samples <? 0) eqn:Hneg.
  - unfold next_batch, np_zeros4. by rewrite Hneg.
  - apply Z.ltb_ge in Hneg. replace n_samples with 0 by lia.
    by apply next_batch_zero.
Qed.

Lemma next_batch_no_samples_witness :
  next_batch 0 {| self := ds_empty; random := counting |}
  = (Ok ([], []), {| self := ds_empty; random := counting |})
  ∧ next_batch (-1) {| self := ds10; random := counting |}
    = (Err "ValueError", {| self := ds10; random := counting |}).
Proof.
  split.
  - apply (next_batch_no_samples ds_empty counting 0); simpl; lia.
  - apply (next_batch_no_samples ds10 counting (-1)); simpl; lia.
Defined.

(** ** The batch in terms of the files *)

Lemma cell_app (t1 t2 : tensor) (w h p : nat) :
  cell (t1 ++ t2) w h p
  = if decide (w < length t1)%nat then cell t1 w h p
    else cell t2 (w - length t1) h p.
Proof.
  unfold cell. destruct (decide _).
  - by rewrite lookup_app_l.
  - by rewrite lookup_app_r by lia.
Qed.

(** The array of a dataset: the windows of the files between two paddings
    of windows that are all false. *)
Lemma Dataset_cell (npys : list tensor) (past : Z) (d : Dataset) (w h p : nat) :
  Dataset_init npys past = Ok d →
  (w < length (data d))%nat → (h < 2)%nat → (p < 88)%nat →
  cell (data d) w h p
  = if decide (Z.to_nat past ≤ w < Z.to_nat past + length (concat npys))%nat
    then cell (concat npys) (w - Z.to_nat past) h p
    else Some false.
Proof.
  intros (_ & _ & Hdata)%Dataset_init_wf Hw Hh Hp. rewrite Hdata in Hw |- *.
  rewrite !length_app, !length_replicate in Hw.
  rewrite !cell_app, !cell_zeros, length_replicate.
  repeat case_decide; try done; lia.
Qed.

(** Every call that returns has drawn from a range that is not empty, or
    was a call for no sample. *)
Lemma next_batch_Ok_inv (d : Dataset) (n_samples : Z) (g : rng)
    (batch_x : list (list row)) (batch_y : list (list label)) (st' : world) :
  wf_dataset d →
  next_batch n_samples {| self := d; random := g |} = (Ok (batch_x, batch_y), st') →
  0 ≤ n_samples
  ∧ length batch_x = Z.to_nat n_samples
  ∧ length batch_y = Z.to_nat n_samples
  ∧ st' = {| self := d; random := advance (Z.to_nat n_samples) g |}
  ∧ (0 < n_samples → 0 < Z.of_nat (length (data d)) - n_windows_past d).
Proof.
  intros Hwf Hrun. pose proof Hwf as (Hpast & _ & _).
  assert (Hn : 0 ≤ n_samples).
  { destruct (decide (0 ≤ n_samples)) as [|Hneg]; [done|].
    unfold next_batch, np_zeros4 in Hrun.
    by rewrite (proj2 (Z.ltb_lt n_samples 0)) in Hrun by lia. }
  split; [done|].
  destruct (decide (n_samples = 0)) as [->|Hpos].
  - rewrite next_batch_zero in Hrun by done. injection Hrun as <- <- <-.
    split; [done|]. split; [done|]. split; [|lia].
    unfold advance. destruct g. simpl. do 2 f_equal. lia.
  - destruct (decide (0 < Z.of_nat (length (data d)) - n_windows_past d))
      as [Hrange|Hno].
    + destruct (next_batch_spec d n_samples g Hwf Hrange Hn)
        as (bx & by_ & Hrun' & Hlx & Hly & _).
      rewrite Hrun in Hrun'. by injection Hrun' as -> -> ->.
    + by rewrite next_batch_empty_range in Hrun by lia.
Qed.

(** X13. The input of a batch in terms of the files: [batch_x] has one
    entry per sample, each of [n_windows_past + 1] windows; window [j] of
    sample [s] is the merge of the two hands of window
    [start_s + j - n_windows_past] of the concatenated files, and false at
    every key where that index falls before the first or after the last
    window of the files. *)
Theorem batch_input_layout (npys : list tensor) (past : Z) (d : Dataset)
    (n_samples : Z) (g : rng) (batch_x : list (list row))
    (batch_y : list (list label)) (st' : world) :
  Dataset_init npys past = Ok d →
  next_batch n_samples {| self := d; random := g |} = (Ok (batch_x, batch_y), st') →
  length batch_x = Z.to_nat n_samples
  ∧ ∀ s, (s < Z.to_nat n_samples)%nat →
      (∃ xs, batch_x !! s = Some xs ∧ length xs = Z.to_nat (past + 1))
      ∧ ∀ j p, (j ≤ Z.to_nat past)%nat → (p < 88)%nat →
          let i := draw d g s + Z.of_nat j - past in
          if decide (0 ≤ i < Z.of_nat (length (concat npys)))
          then ∃ b0 b1, cell (concat npys) (Z.to_nat i) 0 p = Some b0
                        ∧ cell (concat npys) (Z.to_nat i) 1 p = Some b1
                        ∧ cell batch_x s j p = Some (b0 || b1)
          else cell batch_x s j p = Some false.
Proof.
  intros Hinit Hrun.
  pose proof (Dataset_init_wf _ _ _ Hinit) as (Hwf & Hpast_eq & Hdata).
  pose proof Hwf as (Hpast & _ & _).
  destruct (next_batch_Ok_inv d n_samples g _ _ _ Hwf Hrun)
    as (Hn & Hlx & _ & _ & Hrange).
  split; [done|]. intros s Hs. specialize (Hrange ltac:(lia)).
  destruct (next_batch_spec d n_samples g Hwf Hrange Hn)
    as (bx & by_ & Hrun' & _ & _ & Hsample).
  rewrite Hrun in Hrun'. injection Hrun' as <- <- _.
  destruct (Hsample s Hs) as [Hxs Hcell].
  pose proof (draw_range d g s Hrange) as Hdraw. rewrite Hpast_eq in *.
  split; [done|]. intros j p Hj Hp. cbn zeta.
  destruct (Hcell j p) as (b0 & b1 & H0 & H1 & Hx & _); [lia|done|].
  assert (Hw : (Z.to_nat (draw d g s) + j < length (data d))%nat) by lia.
  rewrite (Dataset_cell npys past d _ 0 p Hinit Hw) in H0 by lia.
  rewrite (Dataset_cell npys past d _ 1 p Hinit Hw) in H1 by lia.
  destruct (decide (0 ≤ draw d g s + Z.of_nat j - past
                    < Z.of_nat (length (concat npys)))) as [Hi|Hi].
  - rewrite decide_True in H0, H1 by lia.
    replace (Z.to_nat (draw d g s + Z.of_nat j - past))
      with (Z.to_nat (draw d g s) + j - Z.to_nat past)%nat by lia.
    by exists b0, b1.
  - rewrite decide_False in H0, H1 by lia.
    injection H0 as <-. injection H1 as <-. done.
Qed.

Lemma batch_input_layout_witness :
  ∃ batch_x batch_y st',
    next_batch 2 {| self := ds10; random := counting |} = (Ok (batch_x, batch_y), st')
    ∧ cell batch_x 1 3 39 = Some true
    ∧ cell batch_x 1 0 39 = Some false.
Proof.
  set (r := next_batch 2 {| self := ds10; random := counting |}).
  assert (Hrun : r = (Ok (match r.1 with Ok b => b | Err _ => ([], []) end), r.2)).
  { vm_compute. reflexivity. }
  eexists _, _, _. split; [exact Hrun|].
  destruct (batch_input_layout [four_windows] 3 ds10 2 counting _ _ _ eq_refl Hrun)
    as [_ Hsample].
  destruct (Hsample 1%nat ltac:(simpl; lia)) as [_ Hcell].
  split.
  - destruct (Hcell 3%nat 39%nat ltac:(simpl; lia) ltac:(lia))
      as (b0 & b1 & H0 & H1 & Hx).
    vm_compute in H0, H1. injection H0 as <-. injection H1 as <-. exact Hx.
  - exact (Hcell 0%nat 39%nat ltac:(simpl; lia) ltac:(lia)).
Defined.

(** X14. The label window of a sample is never a window of the leading
    padding: it is window [start_s] of the concatenated files while
    [start_s] is below their number of windows [T], and lies in the
    trailing padding for the other [n_windows_past] starts of the range
    [0, T + n_windows_past); such a sample has no label at all, every
    entry of its row of [batch_y] is nan. *)
Theorem batch_label_of_files (npys : list tensor) (past : Z) (d : Dataset)
    (n_samples : Z) (g : rng) (batch_x : list (list row))
    (batch_y : list (list label)) (st' : world) :
  Dataset_init npys past = Ok d →
  next_batch n_samples {| self := d; random := g |} = (Ok (batch_x, batch_y), st') →
  ∀ s p, (s < Z.to_nat n_samples)%nat → (p < 88)%nat →
    let start := Z.to_nat (draw d g s) in
    let T := length (concat npys) in
    0 ≤ draw d g s < Z.of_nat T + past
    ∧ ((start < T)%nat →
       ∃ b0 b1, cell (concat npys) start 0 p = Some b0
                ∧ cell (concat npys) start 1 p = Some b1
                ∧ cell2 batch_y s p = Some (label_of b0 b1))
    ∧ ((T ≤ start)%nat → cell2 batch_y s p = Some NaN).
Proof.
  intros Hinit Hrun s p Hs Hp.
  pose proof (Dataset_init_wf _ _ _ Hinit) as (Hwf & Hpast_eq & Hdata).
  pose proof Hwf as (Hpast & _ & _).
  destruct (next_batch_Ok_inv d n_samples g _ _ _ Hwf Hrun)
    as (Hn & _ & _ & _ & Hrange).
  specialize (Hrange ltac:(lia)).
  destruct (next_batch_spec d n_samples g Hwf Hrange Hn)
    as (bx & by_ & Hrun' & _ & _ & Hsample).
  rewrite Hrun in Hrun'. injection Hrun' as <- <- _.
  destruct (Hsample s Hs) as [_ Hcell].
  pose proof (draw_range d g s Hrange) as Hdraw. rewrite Hpast_eq in *.
  destruct (Hcell (Z.to_nat past) p) as (b0 & b1 & H0 & H1 & _ & Hy); [lia|done|].
  specialize (Hy eq_refl).
  assert (Hlen : length (data d)
                 = (Z.to_nat past + length (concat npys) + Z.to_nat past)%nat).
  { rewrite Hdata, !length_app, !length_replicate. lia. }
  assert (Hw : (Z.to_nat (draw d g s) + Z.to_nat past < length (data d))%nat) by lia.
  rewrite (Dataset_cell npys past d _ 0 p Hinit Hw) in H0 by lia.
  rewrite (Dataset_cell npys past d _ 1 p Hinit Hw) in H1 by lia.
  cbn zeta. split; [lia|]. split.
  - intros Hin. rewrite decide_True in H0, H1 by lia.
    replace (Z.to_nat (draw d g s) + Z.to_nat past - Z.to_nat past)%nat
      with (Z.to_nat (draw d g s)) in H0, H1 by lia.
    by exists b0, b1.
  - intros Hout. rewrite decide_False in H0, H1 by lia.
    injection H0 as <-. injection H1 as <-. exact Hy.
Qed.

Lemma batch_label_of_files_witness :
  ∃ batch_x batch_y st',
    next_batch 6 {| self := ds10; random := counting |} = (Ok (batch_x, batch_y), st')
    ∧ cell2 batch_y 2 39 = Some (Num 1)
    ∧ cell2 batch_y 5 39 = Some NaN.
Proof.
  set (r := next_batch 6 {| self := ds10; random := counting |}).
  assert (Hrun : r = (Ok (match r.1 with Ok b => b | Err _ => ([], []) end), r.2)).
  { vm_compute. reflexivity. }
  eexists _, _, _. split; [exact Hrun|].
  split.
  - destruct (batch_label_of_files [four_windows] 3 ds10 6 counting _ _ _ eq_refl Hrun
                2%nat 39%nat ltac:(simpl; lia) ltac:(lia)) as (_ & Hin & _).
    destruct (Hin ltac:(vm_compute; lia)) as (b0 & b1 & H0 & H1 & Hy).
    vm_compute in H0, H1. injection H0 as <-. injection H1 as <-. exact Hy.
  - destruct (batch_label_of_files [four_windows] 3 ds10 6 counting _ _ _ eq_refl Hrun
                5%nat 39%nat ltac:(simpl; lia) ltac:(lia)) as (_ & _ & Hout).
    apply Hout. vm_compute. lia.
Defined.

(** ** Two calls in a row *)

Lemma sampled_app (d : Dataset) (g : rng) (n1 n2 : nat) :
  sampled d g (n1 + n2) = sampled d g n1 ++ sampled d (advance n1 g) n2.
Proof.
  unfold sampled. rewrite seq_app, fmap_app. f_equal. simpl.
  replace (seq n1 n2) with (Nat.add n1 <$> seq 0 n2)
    by (rewrite fmap_add_seq; f_equal; lia).
  rewrite <- list_fmap_compose.
  apply list_fmap_ext. intros _ s _. simpl. by rewrite draw_advance.
Qed.

Lemma make_batch_app (n1 n2 len : nat) (hands1 hands2 : list tensor) :
  (0 < len)%nat → length hands1 = n1 → length hands2 = n2 →
  ∃ x1 y1 x2 y2,
    make_batch n1 len hands1 = Ok (x1, y1)
    ∧ make_batch n2 len hands2 = Ok (x2, y2)
    ∧ make_batch (n1 + n2) len (hands1 ++ hands2) = Ok (x1 ++ x2, y1 ++ y2).
Proof.
  intros Hlen H1 H2. rewrite !make_batch_Ok by done. cbn zeta.
  eexists _, _, _, _. split; [done|]. split; [done|].
  unfold logical_or, logical_and, mask_assign, hand_plane.
  rewrite replicate_add, !fmap_app.
  repeat (rewrite ?fmap_app;
          rewrite zip_with_app
            by (repeat (rewrite length_zip_with || rewrite length_fmap
                        || rewrite length_replicate); lia)).
  by rewrite ?fmap_app.
Qed.

(** X15. Sample [s] of a batch depends on draw number [s] only: two calls
    of [next_batch] in a row, for [n1] and then [n2] samples, return the two
    parts of the batch that one call for [n1 + n2] samples returns from the
    same state of the random source, and leave it in the same state. *)
Theorem next_batch_split (npys : list tensor) (past : Z) (d : Dataset) (g : rng)
    (n1 n2 : Z) (x1 x2 : list (list row)) (y1 y2 : list (list label))
    (st1 st2 : world) :
  Dataset_init npys past = Ok d →
  next_batch n1 {| self := d; random := g |} = (Ok (x1, y1), st1) →
  next_batch n2 st1 = (Ok (x2, y2), st2) →
  next_batch (n1 + n2) {| self := d; random := g |}
  = (Ok (x1 ++ x2, y1 ++ y2), st2).
Proof.
  intros (Hwf & _)%Dataset_init_wf Hrun1 Hrun2.
  pose proof Hwf as (Hpast & _ & _).
  destruct (next_batch_Ok_inv d n1 g _ _ _ Hwf Hrun1) as (Hn1 & _ & _ & -> & Hr1).
  destruct (next_batch_Ok_inv d n2 _ _ _ _ Hwf Hrun2) as (Hn2 & _ & _ & -> & Hr2).
  rewrite advance_advance, <- Z2Nat.inj_add by done.
  destruct (decide (n1 + n2 = 0)) as [Hzero|Hpos].
  - assert (n1 = 0) as -> by lia. assert (n2 = 0) as -> by lia.
    rewrite next_batch_zero in Hrun1 by done. injection Hrun1 as <- <-.
    change (advance (Z.to_nat 0) g) with (advance 0 g) in Hrun2.
    rewrite next_batch_zero in Hrun2 by done. injection Hrun2 as <- <-.
    rewrite next_batch_zero by done. do 2 f_equal.
    unfold advance. destruct g. simpl. f_equal. lia.
  - assert (Hrange : 0 < Z.of_nat (length (data d)) - n_windows_past d).
    { destruct (decide (0 < n1)); [by apply Hr1|apply Hr2; lia]. }
    rewrite next_batch_run in Hrun1, Hrun2 |- * by (done || lia).
    rewrite Z2Nat.inj_add, sampled_app by done.
    destruct (make_batch_app (Z.to_nat n1) (Z.to_nat n2)
                (Z.to_nat (n_windows_past d + 1))
                (sampled d g (Z.to_nat n1))
                (sampled d (advance (Z.to_nat n1) g) (Z.to_nat n2)))
      as (x1' & y1' & x2' & y2' & Hm1 & Hm2 & Hm);
      [lia|unfold sampled; by rewrite length_fmap, length_seq..|].
    rewrite Hm1 in Hrun1. rewrite Hm2 in Hrun2.
    injection Hrun1 as <- <-. injection Hrun2 as <- <-.
    by rewrite Hm.
Qed.

Lemma next_batch_split_witness :
  ∃ x1 y1 st1 x2 y2 st2,
    next_batch 2 {| self := ds10; random := counting |} = (Ok (x1, y1), st1)
    ∧ next_batch 3 st1 = (Ok (x2, y2), st2)
    ∧ next_batch 5 {| self := ds10; random := counting |}
      = (Ok (x1 ++ x2, y1 ++ y2), st2).
Proof.
  set (r1 := next_batch 2 {| self := ds10; random := counting |}).
  set (r2 := next_batch 3 r1.2).
  assert (Hrun1 : r1 = (Ok (match r1.1 with Ok b => b | Err _ => ([], []) end), r1.2)).
  { vm_compute. reflexivity. }
  assert (Hrun2 : r2 = (Ok (match r2.1 with Ok b => b | Err _ => ([], []) end), r2.2)).
  { vm_compute. reflexivity. }
  eexists _, _, _, _, _, _. split; [exact Hrun1|]. split; [exact Hrun2|].
  exact (next_batch_split [four_windows] 3 ds10 counting 2 3 _ _ _ _ _ _
           eq_refl Hrun1 Hrun2).
Defined.

(** ** The array of a dataset *)

(** X16. [Dataset.__init__] raises FileNotFoundError exactly when there is
    no array to load, and otherwise the ValueError of numpy exactly when
    the padding is negative or an array has another shape than (n, 2, 88).
    The array of the dataset it returns has twice [n_windows_past] windows
    more than the files together; its windows are those of the files, in
    their order, after [n_windows_past] windows that are all false and
    before as many. *)
Theorem Dataset_init_layout (npys : list tensor) (past : Z) :
  (Dataset_init npys past = Err "FileNotFoundError" ↔ npys = [])
  ∧ (Dataset_init npys past = Err "ValueError"
     ↔ npys ≠ [] ∧ (past < 0 ∨ ∃ t, t ∈ npys ∧ has_shape t = false))
  ∧ ∀ d, Dataset_init npys past = Ok d →
      n_windows_past d = past
      ∧ Z.of_nat (length (data d)) = 2 * past + Z.of_nat (length (concat npys))
      ∧ ∀ w h p, (w < length (data d))%nat → (h < 2)%nat → (p < 88)%nat →
          cell (data d) w h p
          = if decide (Z.to_nat past ≤ w < Z.to_nat past + length (concat npys))%nat
            then cell (concat npys) (w - Z.to_nat past) h p
            else Some false.
Proof.
  split; [|split].
  - unfold Dataset_init, get_files_from_path, np_zeros.
    destruct npys as [|t ts]; [done|]. cbn [mbind result_bind].
    split; [|done]. destruct (past <? 0); [done|]. cbn [mbind result_bind].
    by destruct (forallb has_shape (t :: ts)).
  - unfold Dataset_init, get_files_from_path, np_zeros.
    destruct npys as [|t ts]; [split; [done|by intros [? _]]|].
    cbn [mbind result_bind].
    destruct (past <? 0) eqn:Hpast; cbn [mbind result_bind].
    + apply Z.ltb_lt in Hpast. split; [|done]. intros _. split; [done|by left].
    + apply Z.ltb_ge in Hpast.
      destruct (forallb has_shape (t :: ts)) eqn:Hall.
      * split; [done|]. intros [_ [?|(t' & Hin & Hbad)]]; [lia|].
        rewrite forallb_forall in Hall.
        rewrite (Hall t') in Hbad; [done|by apply list_elem_of_In].
      * split; [|done]. intros _. split; [done|]. right.
        apply not_true_iff_false in Hall. rewrite forallb_forall in Hall.
        destruct (decide (Exists (λ t', has_shape t' = false) (t :: ts)))
          as [(t' & Hin & Hbad)%Exists_exists|Hnone]; [by exists t'|].
        destruct Hall. intros t' Hin%list_elem_of_In.
        destruct (has_shape t') eqn:Ht'; [done|].
        destruct Hnone. apply Exists_exists. by exists t'.
  - intros d Hinit.
    pose proof (Dataset_init_wf _ _ _ Hinit) as ((Hpast & _ & _) & Hpast_eq & Hdata).
    split; [done|]. split.
    + rewrite Hdata, !length_app, !length_replicate. lia.
    + intros w h p Hw Hh Hp. by apply Dataset_cell.
Qed.

Lemma Dataset_init_layout_witness :
  Dataset_init [four_windows; three_hands] 3 = Err "ValueError"
  ∧ Dataset_init [four_windows] (-1) = Err "ValueError"
  ∧ Dataset_init [] 3 = Err "FileNotFoundError"
  ∧ cell (data ds10) 5 1 39 = Some true.
Proof.
  destruct (Dataset_init_layout [four_windows; three_hands] 3) as (_ & [_ Hshape] & _).
  destruct (Dataset_init_layout [four_windows] (-1)) as (_ & [_ Hpad] & _).
  destruct (Dataset_init_layout [] 3) as ([_ Hnone] & _).
  destruct (Dataset_init_layout [four_windows] 3) as (_ & _ & Hok).
  destruct (Hok ds10 eq_refl) as (_ & _ & Hcell).
  split; [|split; [|split]].
  - apply Hshape. split; [done|]. right. exists three_hands.
    split; [|reflexivity]. apply list_elem_of_further, list_elem_of_here.
  - apply Hpad. split; [done|]. left. lia.
  - by apply Hnone.
  - rewrite (Hcell 5%nat 1%nat 39%nat) by (simpl; lia). reflexivity.
Defined.
